(** * Smart Context plugin: topic extraction and embedding-based context filter

    A shallow embedding of the Python code of the Smart Context plugin as it
    is given in [docs/plans/2026-03-01-smart-context-implementation-plan.md]
    ([embedding_cache.py] and [main.py]), with the properties its
    specification states about it.

    Conventions of the embedding.
    - A Python [str] is a [string]: the bytes of its UTF-8 encoding.
      Character-level operations ([isalnum], slicing, [strip]) are the ASCII
      ones.
    - A Python [float] is a binary64 [float] of the kernel; a vector is a
      list of them.  [sum] adds from the left.
    - A [dict] used as a map is a [gmap], a [set] a [gset]; a JSON object
      with optional keys is a record of [option] fields, whose values have
      the types the code expects (a configured threshold is a float, the
      topics of a parsed answer are a list of objects).
    - A raised exception is the [Raise] alternative of [result]; code that
      talks to a collaborator (chat store, language-model provider, file
      system, logger, event sink) runs in a state-and-exception monad over
      the state of the collaborators. *)

From Stdlib Require Import ZArith Ascii String PrimFloat.
From stdpp Require Import gmap strings list.

Set Warnings "-inexact-float".

(** ** Exceptions and results *)

Inductive exn : Type :=
  | ValueError (msg : string)
  | ZeroDivisionError
  | KeyError (key : string)
  | JSONDecodeError
  | ProviderError (msg : string)
  | StoreError (msg : string)
  | OSError (msg : string).

Inductive result (A : Type) : Type :=
  | Ok (a : A)
  | Raise (e : exn).
Arguments Ok {A} a.
Arguments Raise {A} e.

Definition rbind {A B} (r : result A) (k : A -> result B) : result B :=
  match r with
  | Ok a => k a
  | Raise e => Raise e
  end.

(** ** Strings *)

Fixpoint str_take (n : nat) (s : string) : string :=
  match n, s with
  | S n', String c s' => String c (str_take n' s')
  | _, _ => EmptyString
  end.

Fixpoint str_join (sep : string) (parts : list string) : string :=
  match parts with
  | [] => EmptyString
  | [p] => p
  | p :: rest => p +:+ sep +:+ str_join sep rest
  end.

(** ** MD5 (RFC 1321), as [hashlib.md5] computes it *)

Module MD5.
Local Open Scope Z_scope.

Definition mask32 : Z := 0xffffffff.
Definition add32 (a b : Z) : Z := Z.land (a + b) mask32.
Definition not32 (a : Z) : Z := Z.lxor a mask32.
Definition rotl32 (x c : Z) : Z :=
  Z.lor (Z.land (Z.shiftl x c) mask32) (Z.shiftr x (32 - c)).

Definition K : list Z :=
  [ 0xd76aa478; 0xe8c7b756; 0x242070db; 0xc1bdceee; 0xf57c0faf; 0x4787c62a;
    0xa8304613; 0xfd469501; 0x698098d8; 0x8b44f7af; 0xffff5bb1; 0x895cd7be;
    0x6b901122; 0xfd987193; 0xa679438e; 0x49b40821; 0xf61e2562; 0xc040b340;
    0x265e5a51; 0xe9b6c7aa; 0xd62f105d; 0x02441453; 0xd8a1e681; 0xe7d3fbc8;
    0x21e1cde6; 0xc33707d6; 0xf4d50d87; 0x455a14ed; 0xa9e3e905; 0xfcefa3f8;
    0x676f02d9; 0x8d2a4c8a; 0xfffa3942; 0x8771f681; 0x6d9d6122; 0xfde5380c;
    0xa4beea44; 0x4bdecfa9; 0xf6bb4b60; 0xbebfbc70; 0x289b7ec6; 0xeaa127fa;
    0xd4ef3085; 0x04881d05; 0xd9d4d039; 0xe6db99e5; 0x1fa27cf8; 0xc4ac5665;
    0xf4292244; 0x432aff97; 0xab9423a7; 0xfc93a039; 0x655b59c3; 0x8f0ccc92;
    0xffeff47d; 0x85845dd1; 0x6fa87e4f; 0xfe2ce6e0; 0xa3014314; 0x4e0811a1;
    0xf7537e82; 0xbd3af235; 0x2ad7d2bb; 0xeb86d391 ].

Definition shifts : list Z :=
  [ 7; 12; 17; 22; 7; 12; 17; 22; 7; 12; 17; 22; 7; 12; 17; 22;
    5; 9; 14; 20; 5; 9; 14; 20; 5; 9; 14; 20; 5; 9; 14; 20;
    4; 11; 16; 23; 4; 11; 16; 23; 4; 11; 16; 23; 4; 11; 16; 23;
    6; 10; 15; 21; 6; 10; 15; 21; 6; 10; 15; 21; 6; 10; 15; 21 ].

Definition bytes_of (s : string) : list Z :=
  map (fun a => Z.of_nat (Ascii.nat_of_ascii a)) (String.list_ascii_of_string s).

(** The [n] low bytes of [x], least significant first. *)
Fixpoint le_bytes (n : nat) (x : Z) : list Z :=
  match n with
  | O => []
  | S n' => Z.land x 0xff :: le_bytes n' (Z.shiftr x 8)
  end.

Definition pad (msg : list Z) : list Z :=
  let len := Z.of_nat (length msg) in
  msg ++ [0x80] ++ repeat 0 (Z.to_nat ((55 - len) mod 64))
      ++ le_bytes 8 ((8 * len) mod 2 ^ 64).

Fixpoint words (bs : list Z) : list Z :=
  match bs with
  | b0 :: b1 :: b2 :: b3 :: rest =>
      (b0 + Z.shiftl b1 8 + Z.shiftl b2 16 + Z.shiftl b3 24) :: words rest
  | _ => []
  end.

Fixpoint blocks (n : nat) (ws : list Z) : list (list Z) :=
  match n with
  | O => []
  | S n' => take 16 ws :: blocks n' (drop 16 ws)
  end.

Definition state : Type := Z * Z * Z * Z.

Definition step (M : list Z) (st : state) (i : nat) : state :=
  let '(A, B, C, D) := st in
  let iz := Z.of_nat i in
  let '(F, g) :=
    if (i <? 16)%nat then (Z.lor (Z.land B C) (Z.land (not32 B) D), iz)
    else if (i <? 32)%nat then
      (Z.lor (Z.land D B) (Z.land (not32 D) C), (5 * iz + 1) mod 16)
    else if (i <? 48)%nat then (Z.lxor (Z.lxor B C) D, (3 * iz + 5) mod 16)
    else (Z.lxor C (Z.lor B (not32 D)), (7 * iz) mod 16) in
  let F' := add32 (add32 (add32 F A) (nth i K 0)) (nth (Z.to_nat g) M 0) in
  (D, add32 B (rotl32 F' (nth i shifts 0)), B, C).

Definition process (h : state) (M : list Z) : state :=
  let '(a0, b0, c0, d0) := h in
  let '(A, B, C, D) := fold_left (step M) (seq 0 64) h in
  (add32 a0 A, add32 b0 B, add32 c0 C, add32 d0 D).

Definition init : state := (0x67452301, 0xefcdab89, 0x98badcfe, 0x10325476).

Definition digest (s : string) : list Z :=
  let ws := words (pad (bytes_of s)) in
  let '(a, b, c, d) := fold_left process (blocks (length ws / 16) ws) init in
  le_bytes 4 a ++ le_bytes 4 b ++ le_bytes 4 c ++ le_bytes 4 d.

Definition hex_digit (d : Z) : Ascii.ascii :=
  Ascii.ascii_of_nat (Z.to_nat (if d <? 10 then 48 + d else 87 + d)).

Definition hex_byte (b : Z) : string :=
  String (hex_digit (Z.shiftr b 4)) (String (hex_digit (Z.land b 0xf)) EmptyString).

Definition hexdigest (s : string) : string :=
  fold_right (fun b acc => hex_byte b +:+ acc) EmptyString (digest s).

End MD5.

(** ** Data model: messages, topics, the chat document *)

(** A message of the transcript: a dict read with [msg.get(key, default)]. *)
Record Message : Type := {
  msg_id : option string;
  msg_role : option string;
  msg_content : option string;
}.

(** [msg.get("id", "")] *)
Definition get_id (m : Message) : string := default "" (msg_id m).

(** [str(msg.get("content", ""))] *)
Definition get_content (m : Message) : string := default "" (msg_content m).

(** A topic of the Topic Set: [label] and [count], and on the sticky entry
    [sticky] and [message_ids]. *)
Record Topic : Type := {
  t_label : option string;
  t_count : option Z;
  t_sticky : option bool;
  t_message_ids : option (list string);
}.

(** [t.get("sticky")] read as a condition: an absent key is falsy. *)
Definition is_sticky (t : Topic) : bool := default false (t_sticky t).

(** [t.get("message_ids", [])] *)
Definition topic_message_ids (t : Topic) : list string :=
  default [] (t_message_ids t).

(** The chat document of the chat store: the transcript and the Topic Set. *)
Record ChatData : Type := {
  cd_messages : option (list Message);
  cd_topics : option (list Topic);
}.

(** [{}] *)
Definition empty_chat : ChatData := {| cd_messages := None; cd_topics := None |}.

(** [data["topics"] = topics] *)
Definition set_topics (data : ChatData) (topics : list Topic) : ChatData :=
  {| cd_messages := cd_messages data; cd_topics := Some topics |}.

(** The reply of [memory.load_chat]. *)
Record LoadReply : Type := {
  lr_status : option string;
  lr_data : option ChatData;
}.

(** [result.get("data", {})] *)
Definition reply_data (r : LoadReply) : ChatData := default empty_chat (lr_data r).

(** [result.get("status") != "success"] *)
Definition status_not_success (r : LoadReply) : bool :=
  match lr_status r with
  | Some s => negb (String.eqb s "success")
  | None => true
  end.

(** The object the completion provider's answer is parsed into:
    [{"topics": [...], "sticky_message_ids": [...]}], either key optional. *)
Record ExtractionData : Type := {
  ed_topics : option (list Topic);
  ed_sticky_message_ids : option (list string);
}.

(** A message of a completion request. *)
Record LlmMessage : Type := {
  llm_role : string;
  llm_content : string;
}.

(** ** Cosine similarity *)

Definition vector : Type := list float.

(** The float loop of the built-in [sum] of Python 3.12, the version the
    repository names: Neumaier's compensated summation.  [f_result] is the
    running sum and [c] the compensation, which goes in at the end when it
    is finite and not zero. *)
Fixpoint sum_compensated (f_result c : float) (items : list float) : float :=
  match items with
  | [] =>
      if (negb (PrimFloat.eqb c 0) && PrimFloat.is_finite c)%bool
      then (f_result + c)%float else f_result
  | x :: rest =>
      let t := (f_result + x)%float in
      let c' :=
        if PrimFloat.leb (PrimFloat.abs x) (PrimFloat.abs f_result)
        then (c + ((f_result - t) + x))%float
        else (c + ((x - t) + f_result))%float in
      sum_compensated t c' rest
  end.

(** [sum(items)] for floats: the start value is the integer 0, the first
    item is added to it as it is, and the float loop takes the others. *)
Definition float_sum (items : list float) : float :=
  match items with
  | [] => 0%float
  | x :: rest => sum_compensated (0 + x)%float 0%float rest
  end.

(** [sum(x * y for x, y in zip(a, b))] *)
Definition dot (a b : vector) : float :=
  float_sum (map (fun xy => (fst xy * snd xy)%float) (combine a b)).

(** [_cosine_similarity]; a float division by zero raises in Python. *)
Definition _cosine_similarity (a b : vector) : result float :=
  let d := dot a b in
  let norm_a := PrimFloat.sqrt (dot a a) in
  let norm_b := PrimFloat.sqrt (dot b b) in
  if (PrimFloat.eqb norm_a 0 || PrimFloat.eqb norm_b 0)%bool then Ok 0%float
  else
    let n := (norm_a * norm_b)%float in
    if PrimFloat.eqb n 0 then Raise ZeroDivisionError else Ok (d / n)%float.

(** [max(_cosine_similarity(emb, t_emb) for t_emb in topic_embeddings)]:
    the first value is kept until a later one is greater; no value raises. *)
Fixpoint max_from (emb : vector) (cur : float) (ts : list vector) : result float :=
  match ts with
  | [] => Ok cur
  | t :: ts' =>
      rbind (_cosine_similarity emb t) (fun s =>
      max_from emb (if PrimFloat.ltb cur s then s else cur) ts')
  end.

Definition max_sim (emb : vector) (topic_embeddings : list vector) : result float :=
  match topic_embeddings with
  | [] => Raise (ValueError "max() arg is an empty sequence")
  | t :: ts => rbind (_cosine_similarity emb t) (fun s => max_from emb s ts)
  end.

(** ** Plugin state, pipeline context, and what the plugin does to others *)

Record Config : Type := {
  cfg_similarity_threshold : option float;
  cfg_embedding_search : option bool;
  cfg_extraction_category : option string;
}.

Record Plugin : Type := {
  config : Config;
  vault_path : string;
  similarity_threshold : float;
  embedding_search : bool;
  active_topics : gset string;
  current_chat_id : string;
}.

(** [Plugin.__init__]: the two settings are read from the configuration with
    their defaults; nothing is selected and no chat is current. *)
Definition Plugin_init (vault : string) (cfg : Config) : Plugin :=
  {| config := cfg;
     vault_path := vault;
     similarity_threshold := default 0.4%float (cfg_similarity_threshold cfg);
     embedding_search := default true (cfg_embedding_search cfg);
     active_topics := ∅;
     current_chat_id := "" |}.

(** The part of [PipelineContext] the filter reads and writes. *)
Record PipelineContext : Type := {
  history : list Message;
  metadata_chat_id : option string;
}.

Definition set_history (ctx : PipelineContext) (h : list Message) : PipelineContext :=
  {| history := h; metadata_chat_id := metadata_chat_id ctx |}.

Inductive Event : Type :=
  | TopicsUpdated (chat_id : string) (topics : list Topic) (total_messages : nat)
  | FilterChanged (active : list string) (chat_id : string)
  | HighlightApplied (message_ids : list string).

Inductive LogRecord : Type :=
  | InfoTopicsExtracted (chat_id : string) (labels : list string)
  | ErrorExtractionFailed (chat_id : string) (e : exn)
  | ErrorContextInjectionFailed (e : exn)
  | ErrorHighlightFailed (e : exn).

Inductive Task : Type :=
  | TopicExtractionTask (chat_id : string)
  | HighlightTask (chat_id : string).

(** What a run did to the collaborators, in order: chat documents handed to
    [memory.save_chat], events emitted, log records, background tasks
    created with [asyncio.create_task]. *)
Inductive Action : Type :=
  | SavedChat (chat_id : string) (data : ChatData)
  | Emitted (ev : Event)
  | Logged (r : LogRecord)
  | Spawned (t : Task).

(** The collaborators, over the state [W] they keep.  A call answers or
    raises, and may change that state. *)
Record Services (W : Type) : Type := {
  (** [brain.execute_command("memory.load_chat", chat_id=...)] *)
  svc_load_chat : string -> W -> result LoadReply * W;
  (** [brain.execute_command("memory.save_chat", chat_id=..., data=...)] *)
  svc_save_chat : string -> ChatData -> W -> result unit * W;
  (** [llm.complete(messages, category, max_tokens=512, temperature=0.2)],
      the [content] of the response *)
  svc_complete : list LlmMessage -> string -> W -> result string * W;
  (** [llm.embed(texts)] *)
  svc_embed : list string -> W -> result (list vector) * W;
  (** [json.loads] and the shape of the object it yields *)
  svc_json_loads : string -> result ExtractionData;
  (** the embeddings file at a path, when it exists and [json.load] reads it *)
  svc_read_embeddings : string -> W -> option (gmap string vector);
  (** [mkdir], [open] and [json.dump] to a path *)
  svc_write_embeddings : string -> gmap string vector -> W -> result unit * W;
}.
Arguments svc_load_chat {W} _ _ _.
Arguments svc_save_chat {W} _ _ _ _.
Arguments svc_complete {W} _ _ _ _.
Arguments svc_embed {W} _ _ _.
Arguments svc_json_loads {W} _ _.
Arguments svc_read_embeddings {W} _ _ _.
Arguments svc_write_embeddings {W} _ _ _ _.

Record State (W : Type) : Type := {
  world : W;
  self : Plugin;
  actions : list Action;
}.
Arguments world {W} _.
Arguments self {W} _.
Arguments actions {W} _.
Arguments Build_State {W} _ _ _.

(** Computations that read and change the state and may raise; the state
    reached when an exception is raised is kept. *)
Definition M (W A : Type) : Type := State W -> result A * State W.

Definition ret {W A} (a : A) : M W A := fun st => (Ok a, st).

Definition bind {W A B} (c : M W A) (k : A -> M W B) : M W B :=
  fun st =>
    match c st with
    | (Ok a, st') => k a st'
    | (Raise e, st') => (Raise e, st')
    end.

Definition lift {W A} (r : result A) : M W A := fun st => (r, st).

Notation "x <- c ;; k" := (bind c (fun x => k))
  (at level 100, c at next level, right associativity).
Notation "c ;;; k" := (bind c (fun _ => k))
  (at level 100, right associativity).

Definition get_self {W} : M W Plugin := fun st => (Ok (self st), st).

(** An assignment to a field of [self]. *)
Definition modify_self {W} (f : Plugin -> Plugin) : M W unit :=
  fun st => (Ok tt, {| world := world st; self := f (self st); actions := actions st |}).

Definition act {W} (a : Action) : M W unit :=
  fun st => (Ok tt, {| world := world st; self := self st;
                       actions := actions st ++ [a] |}).

(** A call to a collaborator: its answer, and its change to the world. *)
Definition call {W A} (f : W -> result A * W) : M W A :=
  fun st =>
    let '(r, w) := f (world st) in
    (r, {| world := w; self := self st; actions := actions st |}).

(** [try: body  except Exception as e: handler(e)] *)
Definition try_except {W A} (body : M W A) (handler : exn -> M W A) : M W A :=
  fun st =>
    match body st with
    | (Ok a, st') => (Ok a, st')
    | (Raise e, st') => handler e st'
    end.

Definition with_active_topics (p : Plugin) (s : gset string) : Plugin :=
  {| config := config p; vault_path := vault_path p;
     similarity_threshold := similarity_threshold p;
     embedding_search := embedding_search p;
     active_topics := s; current_chat_id := current_chat_id p |}.

Definition with_embedding_search (p : Plugin) (b : bool) : Plugin :=
  {| config := config p; vault_path := vault_path p;
     similarity_threshold := similarity_threshold p;
     embedding_search := b;
     active_topics := active_topics p; current_chat_id := current_chat_id p |}.

Definition with_current_chat_id (p : Plugin) (c : string) : Plugin :=
  {| config := config p; vault_path := vault_path p;
     similarity_threshold := similarity_threshold p;
     embedding_search := embedding_search p;
     active_topics := active_topics p; current_chat_id := c |}.

(** ** More string operations of the extractor *)

Definition nl_char : Ascii.ascii := Ascii.ascii_of_nat 10.
Definition nl : string := String nl_char EmptyString.
Definition dq : string := String (Ascii.ascii_of_nat 34) EmptyString.

(** ASCII [str.isalnum] *)
Definition is_alnum (c : Ascii.ascii) : bool :=
  let n := Ascii.nat_of_ascii c in
  ((48 <=? n) && (n <=? 57) || (65 <=? n) && (n <=? 90)
   || (97 <=? n) && (n <=? 122))%nat.

(** The ASCII characters [str.strip()] removes. *)
Definition is_space (c : Ascii.ascii) : bool :=
  let n := Ascii.nat_of_ascii c in
  ((9 <=? n) && (n <=? 13) || (28 <=? n) && (n <=? 32))%nat.

Fixpoint drop_spaces (l : list Ascii.ascii) : list Ascii.ascii :=
  match l with
  | c :: l' => if is_space c then drop_spaces l' else l
  | [] => []
  end.

(** [s.strip()] *)
Definition str_strip (s : string) : string :=
  String.string_of_list_ascii
    (rev (drop_spaces (rev (drop_spaces (String.list_ascii_of_string s))))).

(** [s.split(c)] for a one-character separator *)
Fixpoint str_split (c : Ascii.ascii) (s : string) : list string :=
  match s with
  | EmptyString => [EmptyString]
  | String a s' =>
      if Ascii.eqb a c then EmptyString :: str_split c s'
      else match str_split c s' with
           | p :: ps => String a p :: ps
           | [] => [String a EmptyString]
           end
  end.

(** [s.endswith(suffix)] *)
Definition str_ends_with (suffix s : string) : bool :=
  String.prefix (String.string_of_list_ascii (rev (String.list_ascii_of_string suffix)))
                (String.string_of_list_ascii (rev (String.list_ascii_of_string s))).

(** ** The embedding cache ([embedding_cache.py]) *)

(** ["".join(c for c in chat_id if c.isalnum() or c in "-_")] *)
Definition safe_id (chat_id : string) : string :=
  String.string_of_list_ascii
    (List.filter (fun c => is_alnum c || Ascii.eqb c "-"%char || Ascii.eqb c "_"%char)
                 (String.list_ascii_of_string chat_id)).

Module EmbeddingCache.

(** An instance: the path of its file and the entries it holds. *)
Record t : Type := {
  _path : string;
  _data : gmap string vector;
}.

Definition _key (message_id content : string) : string :=
  message_id +:+ ":" +:+ str_take 8 (MD5.hexdigest content).

Definition get (c : t) (message_id content : string) : option vector :=
  _data c !! _key message_id content.

(** The assignment [self._data[self._key(message_id, content)] = embedding]. *)
Definition assign (c : t) (message_id content : string) (embedding : vector) : t :=
  {| _path := _path c; _data := <[_key message_id content := embedding]> (_data c) |}.

Section WithServices.
Context {W : Type}.
Variable sv : Services W.

(** [__init__] with [_load]: a missing, unreadable or corrupt file leaves
    the cache empty. *)
Definition __init__ (memory_dir chat_id : string) : M W t :=
  fun st =>
    let path := memory_dir +:+ "/" +:+ safe_id chat_id +:+ ".embeddings.json" in
    (Ok {| _path := path;
           _data := default ∅ (svc_read_embeddings sv path (world st)) |}, st).

Definition _save (c : t) : M W unit :=
  call (svc_write_embeddings sv (_path c) (_data c)).

(** The entry is assigned, then the file is written. *)
Definition set (c : t) (message_id content : string) (embedding : vector) : M W t :=
  let c' := assign c message_id content embedding in
  _save c' ;;; ret c'.

End WithServices.
End EmbeddingCache.

Section Model.
Context {W : Type}.
Variable sv : Services W.

(** ** Topic extraction ([main.py], task 4) *)

Definition TOPIC_EXTRACTION_PROMPT : string :=
  "Analyze this conversation and extract the main topics discussed.
Return JSON only — no markdown, no prose.

Format:
{
  " +:+ dq +:+ "topics" +:+ dq +:+ ": [{" +:+ dq +:+ "label" +:+ dq +:+ ": "
  +:+ dq +:+ "Topic Name" +:+ dq +:+ ", " +:+ dq +:+ "count" +:+ dq +:+ ": N}],
  " +:+ dq +:+ "sticky_message_ids" +:+ dq +:+ ": [" +:+ dq +:+ "id1" +:+ dq
  +:+ ", " +:+ dq +:+ "id2" +:+ dq +:+ "]
}

Rules:
- 3-8 topics max, 2-4 words each, Title Case
- count = approximate number of messages related to this topic
- sticky_message_ids: IDs of SHORT instructional/preference messages
  (e.g. " +:+ dq +:+ "be concise" +:+ dq +:+ ", " +:+ dq +:+ "respond in French"
  +:+ dq +:+ ", " +:+ dq +:+ "use Python 3" +:+ dq +:+ ")
- Return ONLY valid JSON".

(** One line of the prompt's conversation:
    [f"[{m.get('id', '?')}] {m.get('role', 'user')}: {str(m.get('content', ''))[:200]}"] *)
Definition render_message (m : Message) : string :=
  "[" +:+ default "?" (msg_id m) +:+ "] " +:+ default "user" (msg_role m)
      +:+ ": " +:+ str_take 200 (get_content m).

(** The answer stripped, and without its Markdown fence when it has one. *)
Definition strip_fence (content : string) : string :=
  let raw := str_strip content in
  if String.prefix "```" raw then
    let raw := str_join nl (tail (str_split nl_char raw)) in
    if str_ends_with "```" raw then str_take (String.length raw - 3) raw else raw
  else raw.

(** The sticky entry synthesized from the flagged message ids. *)
Definition sticky_entry (sticky_ids : list string) : Topic :=
  {| t_label := Some "Instructions & Preferences";
     t_count := Some (Z.of_nat (length sticky_ids));
     t_sticky := Some true;
     t_message_ids := Some sticky_ids |}.

(** The end of [_extract_topics], from the parsed object to the Topic Set. *)
Definition topics_of_data (data : ExtractionData) : list Topic :=
  let topics := default [] (ed_topics data) in
  let sticky_ids := default [] (ed_sticky_message_ids data) in
  match sticky_ids with
  | [] => topics
  | _ :: _ => topics ++ [sticky_entry sticky_ids]
  end.

(** The request of [_extract_topics]: the prompt, then the transcript. *)
Definition llm_messages_of (messages : list Message) : list LlmMessage :=
  let conversation := str_join nl (map render_message messages) in
  [ {| llm_role := "system"; llm_content := TOPIC_EXTRACTION_PROMPT |};
    {| llm_role := "user"; llm_content := conversation |} ].

(** [self.config.get("extraction_category", "fast")] *)
Definition extraction_category (p : Plugin) : string :=
  default "fast" (cfg_extraction_category (config p)).

Definition _extract_topics (messages : list Message) : M W (list Topic) :=
  p <- get_self ;;
  content <- call (svc_complete sv (llm_messages_of messages) (extraction_category p)) ;;
  data <- lift (svc_json_loads sv (strip_fence content)) ;;
  ret (topics_of_data data).

(** [[t['label'] for t in topics]]: a topic without label raises [KeyError]. *)
Fixpoint labels_of (topics : list Topic) : result (list string) :=
  match topics with
  | [] => Ok []
  | t :: ts =>
      match t_label t with
      | None => Raise (KeyError "label")
      | Some l => rbind (labels_of ts) (fun ls => Ok (l :: ls))
      end
  end.

(** The [try] block of [_run_topic_extraction]. *)
Definition run_topic_extraction_body (chat_id : string) : M W unit :=
  result <- call (svc_load_chat sv chat_id) ;;
  if status_not_success result then ret tt
  else
    let data := reply_data result in
    let messages := default [] (cd_messages data) in
    match messages with
    | [] => ret tt
    | _ :: _ =>
        topics <- _extract_topics messages ;;
        let data := set_topics data topics in
        act (SavedChat chat_id data) ;;;
        call (svc_save_chat sv chat_id data) ;;;
        modify_self (fun p => with_current_chat_id p chat_id) ;;;
        act (Emitted (TopicsUpdated chat_id topics (length messages))) ;;;
        labels <- lift (labels_of topics) ;;
        act (Logged (InfoTopicsExtracted chat_id labels))
    end.

Definition _run_topic_extraction (chat_id : string) : M W unit :=
  try_except (run_topic_extraction_body chat_id)
             (fun e => act (Logged (ErrorExtractionFailed chat_id e))).

(** ** The context filter ([main.py], task 5) *)

(** The sticky message ids of a Topic Set:
    [for t in topics_list: if t.get("sticky"): sticky_ids.update(t.get("message_ids", []))] *)
Definition collect_sticky_ids (topics_list : list Topic) : gset string :=
  fold_left (fun acc t =>
               if is_sticky t then acc ∪ list_to_set (topic_message_ids t) else acc)
            topics_list ∅.

(** First loop of [_compute_relevant_ids]: the messages whose embedding the
    cache has go to [cached], the others to [need_embed], in order. *)
Definition lookup_cached (cache : EmbeddingCache.t) (messages : list Message)
    : list Message * gmap string vector :=
  fold_left (fun acc msg =>
               let '(need_embed, cached) := acc in
               match EmbeddingCache.get cache (get_id msg) (get_content msg) with
               | Some emb => (need_embed, <[get_id msg := emb]> cached)
               | None => (need_embed ++ [msg], cached)
               end)
            messages ([], ∅).

(** Second loop: [for msg, emb in zip(need_embed, new_embeddings)]. *)
Fixpoint store_new (cache : EmbeddingCache.t) (cached : gmap string vector)
    (pairs : list (Message * vector)) : M W (gmap string vector) :=
  match pairs with
  | [] => ret cached
  | (msg, emb) :: rest =>
      cache' <- EmbeddingCache.set sv cache (get_id msg) (get_content msg) emb ;;
      store_new cache' (<[get_id msg := emb]> cached) rest
  end.

(** [_compute_relevant_ids] up to its last loop: the topic embeddings and
    the embedding found or computed for each message id. *)
Definition fetch_embeddings (chat_id : string) (messages : list Message)
    : M W (list vector * gmap string vector) :=
  p <- get_self ;;
  topic_embeddings <- call (svc_embed sv (elements (active_topics p))) ;;
  cache <- EmbeddingCache.__init__ sv (vault_path p +:+ "/.memory") chat_id ;;
  let '(need_embed, cached) := lookup_cached cache messages in
  match need_embed with
  | [] => ret (topic_embeddings, cached)
  | _ :: _ =>
      new_embeddings <- call (svc_embed sv (map get_content need_embed)) ;;
      cached' <- store_new cache cached (combine need_embed new_embeddings) ;;
      ret (topic_embeddings, cached')
  end.

(** Last loop of [_compute_relevant_ids], from the ids [included] so far. *)
Fixpoint score_messages (sticky_ids : gset string) (threshold : float)
    (topic_embeddings : list vector) (cached : gmap string vector)
    (included : list string) (messages : list Message) : result (list string) :=
  match messages with
  | [] => Ok included
  | msg :: rest =>
      let msg_id := get_id msg in
      if decide (msg_id ∈ sticky_ids) then
        score_messages sticky_ids threshold topic_embeddings cached
                       (included ++ [msg_id]) rest
      else
        match cached !! msg_id with
        | None =>
            score_messages sticky_ids threshold topic_embeddings cached included rest
        | Some emb =>
            rbind (max_sim emb topic_embeddings) (fun s =>
            if PrimFloat.leb threshold s then
              score_messages sticky_ids threshold topic_embeddings cached
                             (included ++ [msg_id]) rest
            else
              score_messages sticky_ids threshold topic_embeddings cached included rest)
        end
  end.

Definition _compute_relevant_ids (chat_id : string) (messages : list Message)
    (sticky_ids : gset string) : M W (list string) :=
  embs <- fetch_embeddings chat_id messages ;;
  p <- get_self ;;
  lift (score_messages sticky_ids (similarity_threshold p) (fst embs) (snd embs)
                       [] messages).

(** [[i for i in included if i not in sticky_ids]] *)
Definition non_sticky (sticky_ids : gset string) (included : list string) : list string :=
  filter (fun i => i ∉ sticky_ids) included.

(** [[m for m in ctx.history if m.get("id", "") in included_set]] *)
Definition keep_included (included : list string) (h : list Message) : list Message :=
  let included_set : gset string := list_to_set included in
  filter (fun m => get_id m ∈ included_set) h.

(** The [try] block of [_on_pipeline_context]. *)
Definition on_pipeline_context_body (ctx : PipelineContext) (chat_id : string)
    : M W PipelineContext :=
  result <- call (svc_load_chat sv chat_id) ;;
  let topics_list := default [] (cd_topics (reply_data result)) in
  let sticky_ids := collect_sticky_ids topics_list in
  included <- _compute_relevant_ids chat_id (history ctx) sticky_ids ;;
  match non_sticky sticky_ids included with
  | [] => ret ctx
  | _ :: _ => ret (set_history ctx (keep_included included (history ctx)))
  end.

(** [if not self.active_topics or not self.embedding_search] *)
Definition gate_closed (p : Plugin) : bool :=
  bool_decide (active_topics p = ∅) || negb (embedding_search p).

Definition _on_pipeline_context (ctx : PipelineContext) : M W PipelineContext :=
  p <- get_self ;;
  if gate_closed p then ret ctx
  else
    match metadata_chat_id ctx, history ctx with
    | None, _ | Some EmptyString, _ | _, [] => ret ctx
    | Some chat_id, _ :: _ =>
        try_except (on_pipeline_context_body ctx chat_id)
                   (fun e => act (Logged (ErrorContextInjectionFailed e)) ;;; ret ctx)
    end.

(** ** Commands ([main.py], task 6) *)

(** The parameters a command may receive nested under [p] or [params]. *)
Record Params : Type := {
  p_topics : option (list string);
  p_chat_id : option string;
  p_enabled : option bool;
}.

Record Kwargs : Type := {
  kw_p : option Params;
  kw_params : option Params;
}.

Definition empty_params : Params :=
  {| p_topics := None; p_chat_id := None; p_enabled := None |}.

(** A dict is truthy when it has a key. *)
Definition params_truthy (p : Params) : bool :=
  bool_decide (is_Some (p_topics p)) || bool_decide (is_Some (p_chat_id p))
  || bool_decide (is_Some (p_enabled p)).

(** [kwargs.get("p") or kwargs.get("params", {})] *)
Definition kwargs_params (kw : Kwargs) : Params :=
  match kw_p kw with
  | Some p => if params_truthy p then p else default empty_params (kw_params kw)
  | None => default empty_params (kw_params kw)
  end.

Record SetFilterReply : Type := {
  sf_status : string;
  sf_active_topics : list string;
}.

Definition set_filter (topics : option (list string)) (kw : Kwargs) : M W SetFilterReply :=
  let topics :=
    match topics with
    | Some t => t
    | None => default [] (p_topics (kwargs_params kw))
    end in
  modify_self (fun p => with_active_topics p (list_to_set topics)) ;;;
  p' <- get_self ;;
  act (Emitted (FilterChanged (elements (active_topics p')) (current_chat_id p'))) ;;;
  (if negb (String.eqb (current_chat_id p') "")
      && negb (bool_decide (active_topics p' = ∅)) && embedding_search p'
   then act (Spawned (HighlightTask (current_chat_id p')))
   else ret tt) ;;;
  ret {| sf_status := "success"; sf_active_topics := elements (active_topics p') |}.

Record GetTopicsReply : Type := {
  gt_status : string;
  gt_topics : list Topic;
  gt_total_messages : nat;
}.

Definition no_topics : GetTopicsReply :=
  {| gt_status := "success"; gt_topics := []; gt_total_messages := 0 |}.

Definition get_topics (chat_id : string) (kw : Kwargs) : M W GetTopicsReply :=
  p <- get_self ;;
  let chat_id :=
    match chat_id with
    | EmptyString => default (current_chat_id p) (p_chat_id (kwargs_params kw))
    | _ => chat_id
    end in
  match chat_id with
  | EmptyString => ret no_topics
  | _ =>
      result <- call (svc_load_chat sv chat_id) ;;
      if status_not_success result then ret no_topics
      else
        let data := reply_data result in
        ret {| gt_status := "success";
               gt_topics := default [] (cd_topics data);
               gt_total_messages := length (default [] (cd_messages data)) |}
  end.

(** The [enabled] argument: a [bool], or something that is not one. *)
Inductive EnabledArg : Type :=
  | IsBool (b : bool)
  | NotBool.

Record ModeReply : Type := {
  mr_status : string;
  mr_embedding_search : bool;
}.

Definition set_similarity_mode (enabled : EnabledArg) (kw : Kwargs) : M W ModeReply :=
  let enabled :=
    match enabled with
    | IsBool b => b
    | NotBool => default true (p_enabled (kwargs_params kw))
    end in
  modify_self (fun p => with_embedding_search p enabled) ;;;
  (if enabled then ret tt
   else
     modify_self (fun p => with_active_topics p ∅) ;;;
     q <- get_self ;;
     act (Emitted (FilterChanged [] (current_chat_id q)))) ;;;
  r <- get_self ;;
  ret {| mr_status := "success"; mr_embedding_search := embedding_search r |}.

(** The [try] block of [_emit_highlight_ids]. *)
Definition emit_highlight_ids_body (chat_id : string) : M W unit :=
  result <- call (svc_load_chat sv chat_id) ;;
  let data := reply_data result in
  let messages := default [] (cd_messages data) in
  let topics_list := default [] (cd_topics data) in
  let sticky_ids := collect_sticky_ids topics_list in
  included <- _compute_relevant_ids chat_id messages sticky_ids ;;
  act (Emitted (HighlightApplied included)).

Definition _emit_highlight_ids (chat_id : string) : M W unit :=
  try_except (emit_highlight_ids_body chat_id)
             (fun e => act (Logged (ErrorHighlightFailed e))).

(** ** Sequences of runs

    The plugin's entry points, each run to its end, one after the other. *)
Inductive Op : Type :=
  | OpSetFilter (topics : option (list string)) (kw : Kwargs)
  | OpSetSimilarityMode (enabled : EnabledArg) (kw : Kwargs)
  | OpGetTopics (chat_id : string) (kw : Kwargs)
  | OpPipelineContext (ctx : PipelineContext)
  | OpTopicExtraction (chat_id : string)
  | OpEmitHighlight (chat_id : string).

Definition run_op (st : State W) (op : Op) : State W :=
  match op with
  | OpSetFilter topics kw => snd (set_filter topics kw st)
  | OpSetSimilarityMode enabled kw => snd (set_similarity_mode enabled kw st)
  | OpGetTopics chat_id kw => snd (get_topics chat_id kw st)
  | OpPipelineContext ctx => snd (_on_pipeline_context ctx st)
  | OpTopicExtraction chat_id => snd (_run_topic_extraction chat_id st)
  | OpEmitHighlight chat_id => snd (_emit_highlight_ids chat_id st)
  end.

Definition run_ops (ops : list Op) (st : State W) : State W :=
  fold_left run_op ops st.

Definition is_set_filter (op : Op) : bool :=
  match op with
  | OpSetFilter _ _ => true
  | _ => false
  end.

End Model.

(** The sticky message ids of the Topic Set a [memory.load_chat] reply
    carries, as [_on_pipeline_context] resolves them. *)
Definition sticky_ids_of (reply : LoadReply) : gset string :=
  collect_sticky_ids (default [] (cd_topics (reply_data reply))).

(** The filter goes past its two early returns: filtering is enabled, a
    topic is selected, the context names a chat and has a history. *)
Definition filter_runs (p : Plugin) (ctx : PipelineContext) (chat_id : string) : Prop :=
  gate_closed p = false /\ metadata_chat_id ctx = Some chat_id /\
  chat_id <> "" /\ history ctx <> [].

(** The state once a collaborator has answered and left the world [w]. *)
Definition with_world {W} (st : State W) (w : W) : State W :=
  {| world := w; self := self st; actions := actions st |}.

(** The number of sticky entries of a Topic Set. *)
Definition sticky_count (topics : list Topic) : nat :=
  length (List.filter is_sticky topics).

(** The Topic Sets handed to [memory.save_chat] by a run, oldest first. *)
Definition saved_topic_sets (acts : list Action) : list (list Topic) :=
  flat_map (fun a => match a with
                     | SavedChat _ data => [default [] (cd_topics data)]
                     | _ => []
                     end) acts.

(** ** Vocabulary of the properties *)

Section Vocabulary.
Context {W : Type}.
Variable sv : Services W.

(** Relations between the state before and after a run that hold across
    every step that leaves the plugin's own fields alone. *)
Record Stable (R : State W -> State W -> Prop) : Prop := {
  stable_refl : forall st, R st st;
  stable_trans : forall a b c, R a b -> R b c -> R a c;
  stable_world : forall st w,
    R st {| world := w; self := self st; actions := actions st |};
  stable_act : forall st a,
    R st {| world := world st; self := self st; actions := actions st ++ [a] |};
}.

Definition respects (R : State W -> State W -> Prop) {A} (c : M W A) : Prop :=
  forall st, R st (snd (c st)).

Definition same_selection (a b : State W) : Prop :=
  active_topics (self b) = active_topics (self a).

Definition same_self (a b : State W) : Prop := self b = self a.

(** The handler of the filter's [try]. *)
Definition filter_failed (ctx : PipelineContext) (e : exn) (st : State W)
    : result PipelineContext * State W :=
  (Ok ctx, {| world := world st; self := self st;
              actions := actions st ++ [Logged (ErrorContextInjectionFailed e)] |}).

(** The end of the [try] block, from the call to [memory.save_chat] on. *)
Definition after_extraction (chat_id : string) (data : ChatData)
    (topics : list Topic) (total : nat) : M W unit :=
  act (SavedChat chat_id data) ;;;
  call (svc_save_chat sv chat_id data) ;;;
  modify_self (fun p => with_current_chat_id p chat_id) ;;;
  act (Emitted (TopicsUpdated chat_id topics total)) ;;;
  labels <- lift (labels_of topics) ;;
  act (Logged (InfoTopicsExtracted chat_id labels)).


(** The object a run of [_run_topic_extraction] parses the provider's
    answer into, when the run gets that far: the chat is loaded with
    messages, the provider answers and [json.loads] accepts the answer. *)
Definition parsed_answer (chat_id : string) (st : State W) : option ExtractionData :=
  match svc_load_chat sv chat_id (world st) with
  | (Ok reply, w1) =>
      if status_not_success reply then None
      else
        match default [] (cd_messages (reply_data reply)) with
        | [] => None
        | m :: ms =>
            match svc_complete sv (llm_messages_of (m :: ms))
                               (extraction_category (self st)) w1 with
            | (Ok content, _) =>
                match svc_json_loads sv (strip_fence content) with
                | Ok data => Some data
                | Raise _ => None
                end
            | (Raise _, _) => None
            end
        end
  | (Raise _, _) => None
  end.

(** The answers parsed by successive extractions, oldest first. *)
Fixpoint parsed_answers (chat_ids : list string) (st : State W) : list ExtractionData :=
  match chat_ids with
  | [] => []
  | c :: cs =>
      match parsed_answer c st with Some data => [data] | None => [] end
      ++ parsed_answers cs (snd (_run_topic_extraction sv c st))
  end.

(** None of the topics of an answer carries a sticky flag of its own. *)
Definition no_flagged_topic (data : ExtractionData) : Prop :=
  Forall (fun t => is_sticky t = false) (default [] (ed_topics data)).

End Vocabulary.

(** What [set_similarity_mode] does, by the value of [enabled] it ends up
    with. *)
Definition effective_enabled (enabled : EnabledArg) (kw : Kwargs) : bool :=
  match enabled with
  | IsBool b => b
  | NotBool => default true (p_enabled (kwargs_params kw))
  end.

(** A message id clears the bar when the embedding held for it scores at
    least the threshold against the topic embeddings. *)
Definition clears (threshold : float) (topic_embeddings : list vector)
    (cached : gmap string vector) (i : string) : Prop :=
  exists (emb : vector) (s : float),
    cached !! i = Some emb /\ max_sim emb topic_embeddings = Ok s /\
    PrimFloat.leb threshold s = true.

(** ** A small world to run the plugin in

    The chat store is a map from chat ids to chat documents, the embedding
    files a map from paths; the two providers answer successive calls from
    a list of prepared answers and raise when it is exhausted; [json.loads]
    is given by the table of the texts it is asked to read. *)
Module Demo.

Record World : Type := {
  chats : gmap string ChatData;
  files : gmap string (gmap string vector);
  embed_answers : list (result (list vector));
  complete_answers : list (result string);
}.

Definition load_chat (chat_id : string) (w : World) : result LoadReply * World :=
  match chats w !! chat_id with
  | Some d => (Ok {| lr_status := Some "success"; lr_data := Some d |}, w)
  | None => (Ok {| lr_status := Some "error"; lr_data := None |}, w)
  end.

Definition save_chat (chat_id : string) (data : ChatData) (w : World)
    : result unit * World :=
  (Ok tt, {| chats := <[chat_id := data]> (chats w); files := files w;
             embed_answers := embed_answers w;
             complete_answers := complete_answers w |}).

Definition complete (_ : list LlmMessage) (_ : string) (w : World)
    : result string * World :=
  match complete_answers w with
  | r :: rs => (r, {| chats := chats w; files := files w;
                      embed_answers := embed_answers w; complete_answers := rs |})
  | [] => (Raise (ProviderError "no answer"), w)
  end.

Definition embed (_ : list string) (w : World) : result (list vector) * World :=
  match embed_answers w with
  | r :: rs => (r, {| chats := chats w; files := files w;
                      embed_answers := rs; complete_answers := complete_answers w |})
  | [] => (Raise (ProviderError "no answer"), w)
  end.

Fixpoint json_loads (table : list (string * ExtractionData)) (text : string)
    : result ExtractionData :=
  match table with
  | [] => Raise JSONDecodeError
  | (t, d) :: rest => if String.eqb t text then Ok d else json_loads rest text
  end.

Definition read_embeddings (path : string) (w : World) : option (gmap string vector) :=
  files w !! path.

Definition write_embeddings (path : string) (data : gmap string vector) (w : World)
    : result unit * World :=
  (Ok tt, {| chats := chats w; files := <[path := data]> (files w);
             embed_answers := embed_answers w;
             complete_answers := complete_answers w |}).

Definition services (table : list (string * ExtractionData)) : Services World :=
  {| svc_load_chat := load_chat;
     svc_save_chat := save_chat;
     svc_complete := complete;
     svc_embed := embed;
     svc_json_loads := json_loads table;
     svc_read_embeddings := read_embeddings;
     svc_write_embeddings := write_embeddings |}.

End Demo.

(** ** Inputs of the examples *)

Definition demo_cache : EmbeddingCache.t :=
  {| EmbeddingCache._path := "/vault/.memory/chat_abc.embeddings.json";
     EmbeddingCache._data := ∅ |}.

Definition demo_world : Demo.World :=
  {| Demo.chats := ∅; Demo.files := ∅;
     Demo.embed_answers := []; Demo.complete_answers := [] |}.

Definition demo_state : State Demo.World :=
  {| world := demo_world;
     self := Plugin_init "/vault"
               {| cfg_similarity_threshold := None; cfg_embedding_search := None;
                  cfg_extraction_category := None |};
     actions := [] |}.


Definition msg (id content : string) : Message :=
  {| msg_id := Some id; msg_role := Some "user"; msg_content := Some content |}.

Definition plain_topic (label : string) (count : Z) : Topic :=
  {| t_label := Some label; t_count := Some count;
     t_sticky := None; t_message_ids := None |}.

Definition no_kwargs : Kwargs := {| kw_p := None; kw_params := None |}.

(** A plugin with the given threshold and selection, filtering enabled,
    attached to the vault [/vault]. *)
Definition demo_plugin (threshold : float) (selection : list string) : Plugin :=
  with_active_topics
    (Plugin_init "/vault"
       {| cfg_similarity_threshold := Some threshold; cfg_embedding_search := None;
          cfg_extraction_category := None |})
    (list_to_set selection).

Definition demo_history : list Message :=
  [ msg "m1" "How does async work in Python?";
    msg "m2" "What is the capital of France?" ].

Definition demo_ctx : PipelineContext :=
  {| history := demo_history; metadata_chat_id := Some "chat_test" |}.

(** The state of the test [test_context_injection_filters_by_similarity],
    with a threshold to choose: the provider embeds the topic, then the
    two messages. *)
Definition demo_filter_state (threshold : float) : State Demo.World :=
  {| world :=
       {| Demo.chats :=
            {[ "chat_test" :=
                 {| cd_messages := Some demo_history;
                    cd_topics := Some [plain_topic "Python Async" 1] |} ]};
          Demo.files := ∅;
          Demo.embed_answers :=
            [ Ok [[0.9; 0.1]%float]; Ok [[0.85; 0.15]; [0.1; 0.95]]%float ];
          Demo.complete_answers := [] |};
     self := demo_plugin threshold ["Python Async"];
     actions := [] |}.

(** The same with filtering switched off. *)
Definition demo_disabled_state : State Demo.World :=
  {| world := world (demo_filter_state 0.7);
     self := with_embedding_search (demo_plugin 0.7 ["Python Async"]) false;
     actions := [] |}.

(** The state of [test_context_injection_fallback_when_threshold_met_by_nothing]. *)
Definition demo_fallback_ctx : PipelineContext :=
  {| history := [msg "m1" "hello"]; metadata_chat_id := Some "c1" |}.

Definition demo_fallback_chat : ChatData :=
  {| cd_messages := Some [msg "m1" "hello"]; cd_topics := Some [] |}.

Definition demo_fallback_state : State Demo.World :=
  {| world :=
       {| Demo.chats := {[ "c1" := demo_fallback_chat ]};
          Demo.files := ∅;
          Demo.embed_answers := [ Ok [[1; 0]%float]; Ok [[0.1; 0.9]%float] ];
          Demo.complete_answers := [] |};
     self := demo_plugin 0.99 ["Exotic Topic"];
     actions := [] |}.

(** A chat with a standing instruction: [sticky1] is flagged sticky and
    scores 0 against the selected topic, [m1] scores 1 and [m2] scores 0. *)
Definition demo_sticky_history : list Message :=
  [ msg "sticky1" "be concise";
    msg "m1" "something about python async";
    msg "m2" "What is the capital of France?" ].

Definition demo_sticky_ctx : PipelineContext :=
  {| history := demo_sticky_history; metadata_chat_id := Some "c1" |}.

Definition demo_sticky_chat : ChatData :=
  {| cd_messages := Some demo_sticky_history;
     cd_topics :=
       Some [ plain_topic "Python Async" 1;
              {| t_label := Some "Instructions & Preferences"; t_count := Some 1%Z;
                 t_sticky := Some true; t_message_ids := Some ["sticky1"] |} ] |}.

Definition demo_sticky_state : State Demo.World :=
  {| world :=
       {| Demo.chats := {[ "c1" := demo_sticky_chat ]};
          Demo.files := ∅;
          Demo.embed_answers :=
            [ Ok [[1; 0]%float]; Ok [[0; 1]; [1; 0]; [0; 1]]%float ];
          Demo.complete_answers := [] |};
     self := demo_plugin 0.5 ["Python Async"];
     actions := [] |}.

(** The embedding provider is down. *)
Definition demo_outage_state : State Demo.World :=
  {| world :=
       {| Demo.chats := Demo.chats (world (demo_filter_state 0.7));
          Demo.files := ∅;
          Demo.embed_answers := [ Raise (ProviderError "embedding provider timed out") ];
          Demo.complete_answers := [] |};
     self := demo_plugin 0.7 ["Python Async"];
     actions := [] |}.

(** The chat of [test_extract_topics_parses_llm_response], with a Topic Set
    from an earlier extraction. *)
Definition demo_transcript : list Message :=
  [ msg "a1b2" "be concise";
    msg "c3d4" "How does async work in Python?";
    {| msg_id := Some "e5f6"; msg_role := Some "assistant";
       msg_content := Some "Async uses coroutines..." |} ].

Definition demo_chat : ChatData :=
  {| cd_messages := Some demo_transcript;
     cd_topics := Some [plain_topic "Greetings" 1] |}.

Definition quoted (s : string) : string := dq +:+ s +:+ dq.

(** [{"topics": [{"label": "Python Async", "count": 2}], "sticky_message_ids": ["a1b2"]}] *)
Definition demo_answer : string :=
  "{" +:+ quoted "topics" +:+ ": [{" +:+ quoted "label" +:+ ": "
  +:+ quoted "Python Async" +:+ ", " +:+ quoted "count" +:+ ": 2}], "
  +:+ quoted "sticky_message_ids" +:+ ": [" +:+ quoted "a1b2" +:+ "]}".

Definition demo_answer_data : ExtractionData :=
  {| ed_topics := Some [plain_topic "Python Async" 2];
     ed_sticky_message_ids := Some ["a1b2"] |}.

(** An answer whose topic carries a sticky flag of its own:
    [{"topics": [{"label": "Tone", "count": 1, "sticky": true, "message_ids": ["a1b2"]}],
      "sticky_message_ids": ["c3d4"]}] *)
Definition demo_flagged_answer : string :=
  "{" +:+ quoted "topics" +:+ ": [{" +:+ quoted "label" +:+ ": " +:+ quoted "Tone"
  +:+ ", " +:+ quoted "count" +:+ ": 1, " +:+ quoted "sticky" +:+ ": true, "
  +:+ quoted "message_ids" +:+ ": [" +:+ quoted "a1b2" +:+ "]}], "
  +:+ quoted "sticky_message_ids" +:+ ": [" +:+ quoted "c3d4" +:+ "]}".

Definition demo_flagged_answer_data : ExtractionData :=
  {| ed_topics :=
       Some [ {| t_label := Some "Tone"; t_count := Some 1%Z;
                 t_sticky := Some true; t_message_ids := Some ["a1b2"] |} ];
     ed_sticky_message_ids := Some ["c3d4"] |}.

(** An answer that is JSON but not of the format asked for, its topic has
    no label: [{"topics": [{"count": 2}]}] *)
Definition demo_unlabelled_answer : string :=
  "{" +:+ quoted "topics" +:+ ": [{" +:+ quoted "count" +:+ ": 2}]}".

Definition unlabelled_topic : Topic :=
  {| t_label := None; t_count := Some 2%Z; t_sticky := None; t_message_ids := None |}.

Definition demo_unlabelled_answer_data : ExtractionData :=
  {| ed_topics := Some [unlabelled_topic]; ed_sticky_message_ids := None |}.

(** A second well-formed answer, with no id flagged:
    [{"topics": [{"label": "Coroutines", "count": 3}]}] *)
Definition demo_second_answer : string :=
  "{" +:+ quoted "topics" +:+ ": [{" +:+ quoted "label" +:+ ": "
  +:+ quoted "Coroutines" +:+ ", " +:+ quoted "count" +:+ ": 3}]}".

Definition demo_second_answer_data : ExtractionData :=
  {| ed_topics := Some [plain_topic "Coroutines" 3]; ed_sticky_message_ids := None |}.

(** What [json.loads] makes of these answers; any other text is rejected. *)
Definition demo_json : list (string * ExtractionData) :=
  [ (demo_answer, demo_answer_data); (demo_flagged_answer, demo_flagged_answer_data);
    (demo_unlabelled_answer, demo_unlabelled_answer_data);
    (demo_second_answer, demo_second_answer_data) ].

(** The state before an extraction to which the provider gives [answer]. *)
Definition demo_extraction_state (answer : result string) : State Demo.World :=
  {| world :=
       {| Demo.chats := {[ "chat_test" := demo_chat ]};
          Demo.files := ∅;
          Demo.embed_answers := [];
          Demo.complete_answers := [answer] |};
     self := demo_plugin 0.4 [];
     actions := [] |}.

(** The state before a series of extractions to which the provider gives
    [answers], one after the other. *)
Definition demo_extractions_state (answers : list (result string)) : State Demo.World :=
  {| world :=
       {| Demo.chats := {[ "chat_test" := demo_chat ]};
          Demo.files := ∅;
          Demo.embed_answers := [];
          Demo.complete_answers := answers |};
     self := demo_plugin 0.4 [];
     actions := [] |}.


(** The collaborators of [Demo] with a chat store that loads and refuses
    to save. *)
Definition demo_read_only_store (table : list (string * ExtractionData))
    : Services Demo.World :=
  {| svc_load_chat := Demo.load_chat;
     svc_save_chat := fun _ _ w => (Raise (StoreError "store is read-only"), w);
     svc_complete := Demo.complete;
     svc_embed := Demo.embed;
     svc_json_loads := Demo.json_loads table;
     svc_read_embeddings := Demo.read_embeddings;
     svc_write_embeddings := Demo.write_embeddings |}.


(** ** Further vocabulary and inputs *)

(** A computation that leaves the plugin and the record of actions as they
    are: it can only talk to collaborators. *)
Definition quiet {W A} (c : M W A) : Prop :=
  forall st : State W,
    self (snd (c st)) = self st /\ actions (snd (c st)) = actions st.

(** The characters [safe_id] must keep out of a file name. *)
Definition is_path_char (c : ascii) : bool :=
  Ascii.eqb c "/" || Ascii.eqb c "\" || Ascii.eqb c ".".

(** The path of the embeddings file of a chat, as [_compute_relevant_ids]
    and [EmbeddingCache.__init__] build it. *)
Definition cache_path (p : Plugin) (chat_id : string) : string :=
  (vault_path p +:+ "/.memory") +:+ "/" +:+ safe_id chat_id +:+ ".embeddings.json".

(** The two commands that assign the fields the filter reads. *)
Definition is_command (op : Op) : bool :=
  match op with
  | OpSetFilter _ _ | OpSetSimilarityMode _ _ => true
  | _ => false
  end.

(** [[t['label'] for t in topics]] when every topic has a label. *)
Definition labels (topics : list Topic) : list string :=
  map (fun t => default "" (t_label t)) topics.

(** The topics [set_filter] ends up with: its argument, or when that is
    [None] the [topics] of the nested parameters. *)
Definition effective_topics (topics : option (list string)) (kw : Kwargs) : list string :=
  match topics with
  | Some t => t
  | None => default [] (p_topics (kwargs_params kw))
  end.

(** The fields of the plugin that no run assigns. *)
Definition same_settings {W} (a b : State W) : Prop :=
  similarity_threshold (self b) = similarity_threshold (self a) /\
  config (self b) = config (self a) /\
  vault_path (self b) = vault_path (self a).

(** The fields the filter's gate and scoring read. *)
Definition same_filter_state {W} (a b : State W) : Prop :=
  active_topics (self b) = active_topics (self a) /\
  embedding_search (self b) = embedding_search (self a) /\
  similarity_threshold (self b) = similarity_threshold (self a).

(** The state of the filter's test with a warm cache: the embeddings file
    of the chat holds the two messages of the history, and the provider
    has one answer left, for the topic. *)
Definition demo_warm_state : State Demo.World :=
  {| world :=
       {| Demo.chats := Demo.chats (world (demo_filter_state 0.7));
          Demo.files :=
            {[ cache_path (demo_plugin 0.7 ["Python Async"]) "chat_test" :=
                 {[ EmbeddingCache._key "m1" "How does async work in Python?"
                      := [0.85; 0.15]%float;
                    EmbeddingCache._key "m2" "What is the capital of France?"
                      := [0.1; 0.95]%float ]} ]};
          Demo.embed_answers := [ Ok [[0.9; 0.1]%float] ];
          Demo.complete_answers := [] |};
     self := demo_plugin 0.7 ["Python Async"];
     actions := [] |}.

(** The world of an extraction once the provider has answered. *)
Definition demo_answered_world : Demo.World :=
  {| Demo.chats := {[ "chat_test" := demo_chat ]}; Demo.files := ∅;
     Demo.embed_answers := []; Demo.complete_answers := [] |}.

(** The reply of the chat store for the chat of the extraction tests. *)
Definition demo_reply : LoadReply :=
  {| lr_status := Some "success"; lr_data := Some demo_chat |}.
(** * Properties *)

(** ** MD5 test vectors (RFC 1321, and [hashlib]) *)

Example md5_hexdigest_empty : MD5.hexdigest "" = "d41d8cd98f00b204e9800998ecf8427e".
Proof. vm_compute. reflexivity. Qed.

Example md5_hexdigest_abc : MD5.hexdigest "abc" = "900150983cd24fb0d6963f7d28e17f72".
Proof. vm_compute. reflexivity. Qed.

Example md5_hexdigest_hello_world :
  MD5.hexdigest "hello world" = "5eb63bbbe01eeed093cb22bb8f5acdc3".
Proof. vm_compute. reflexivity. Qed.

Example md5_hexdigest_two_blocks :
  MD5.hexdigest
    "aaaaaaaaaaaaaaaaaaaaaaaaaaaaaaaaaaaaaaaaaaaaaaaaaaaaaaaaaaaaaaaaaaaaaaaaaaaaaaaaaaaaaaaaaaaaaaaaaaaa"
  = "36a92cc94a9e0fa21f625f8bfb007adf".
Proof. vm_compute. reflexivity. Qed.

(** ** The embedding cache *)

Lemma append_inj_r (s x y : string) : s +:+ x = s +:+ y -> x = y.
Proof.
  induction s as [|a s IH]; simpl; intros H; [exact H|].
  injection H as H. auto.
Qed.

(** Two contents give one message the same key exactly when their
    fingerprints agree. *)
Lemma key_eq_fingerprint (message_id c1 c2 : string) :
  EmbeddingCache._key message_id c1 = EmbeddingCache._key message_id c2 <->
  str_take 8 (MD5.hexdigest c1) = str_take 8 (MD5.hexdigest c2).
Proof.
  unfold EmbeddingCache._key. split.
  - intros H. apply append_inj_r in H. apply (append_inj_r ":") in H. exact H.
  - intros ->. reflexivity.
Qed.

Lemma cache_get_assign_same (c : EmbeddingCache.t) (message_id content : string)
    (embedding : vector) :
  EmbeddingCache.get (EmbeddingCache.assign c message_id content embedding)
                     message_id content
  = Some embedding.
Proof. unfold EmbeddingCache.get, EmbeddingCache.assign; simpl. apply lookup_insert_eq. Qed.

Lemma cache_get_assign_other (c : EmbeddingCache.t) (message_id content other : string)
    (embedding : vector) :
  str_take 8 (MD5.hexdigest other) <> str_take 8 (MD5.hexdigest content) ->
  EmbeddingCache.get (EmbeddingCache.assign c message_id content embedding)
                     message_id other
  = EmbeddingCache.get c message_id other.
Proof.
  intros Hfp. unfold EmbeddingCache.get, EmbeddingCache.assign; simpl.
  apply lookup_insert_ne. intros Hk. apply Hfp. symmetry.
  apply (key_eq_fingerprint message_id). exact Hk.
Qed.

Section CacheProperties.
Context {W : Type} (sv : Services W).

(** A [set] that returns has assigned the entry and written the file. *)
Lemma cache_set_returns (c c' : EmbeddingCache.t) (message_id content : string)
    (embedding : vector) (st st' : State W) :
  EmbeddingCache.set sv c message_id content embedding st = (Ok c', st') ->
  c' = EmbeddingCache.assign c message_id content embedding.
Proof.
  unfold EmbeddingCache.set, bind, EmbeddingCache._save, call, ret. intros H.
  destruct (svc_write_embeddings sv _ _ (world st)) as [[[]|e] w]; congruence.
Qed.

(** C5, as amended.  [cache.get(id, content)] right after a
    [cache.set(id, content, vec)] that returned yields [vec].  For a
    modified content whose fingerprint (the first 8 hexadecimal digits of
    its MD5 digest) differs from the original's, [cache.get(id, modified)]
    after that [set] is absent whenever the cache held no entry under that
    key before the [set]. *)
Theorem cache_get_after_set (c c' : EmbeddingCache.t) (message_id content : string)
    (vec : vector) (st st' : State W) :
  EmbeddingCache.set sv c message_id content vec st = (Ok c', st') ->
  EmbeddingCache.get c' message_id content = Some vec /\
  forall modified : string,
    str_take 8 (MD5.hexdigest modified) <> str_take 8 (MD5.hexdigest content) ->
    EmbeddingCache.get c message_id modified = None ->
    EmbeddingCache.get c' message_id modified = None.
Proof.
  intros Hset. apply cache_set_returns in Hset. subst c'. split.
  - apply cache_get_assign_same.
  - intros modified Hfp Hnone. rewrite cache_get_assign_other; assumption.
Qed.

End CacheProperties.

Lemma cache_get_after_set_witness :
  EmbeddingCache.get (EmbeddingCache.assign demo_cache "msg1" "original" [0.5%float])
                     "msg1" "original"
  = Some [0.5%float] /\
  EmbeddingCache.get (EmbeddingCache.assign demo_cache "msg1" "original" [0.5%float])
                     "msg1" "modified"
  = None.
Proof.
  destruct (cache_get_after_set (Demo.services []) demo_cache
              (EmbeddingCache.assign demo_cache "msg1" "original" [0.5%float])
              "msg1" "original" [0.5%float] demo_state
              (snd (EmbeddingCache.set (Demo.services []) demo_cache "msg1" "original"
                              [0.5%float] demo_state))
              eq_refl) as [Hsame Hother].
  split; [exact Hsame|].
  apply Hother; [vm_compute; discriminate | reflexivity].
Defined.

(** C5 as stated fails: two different contents with the same fingerprint
    share a key, so the second is a hit after a [set] with the first, even
    on a cache that was empty. *)
Lemma cache_fingerprint_collision :
  "note 47428" <> "note 83920" /\
  exists (c1 : EmbeddingCache.t) (st1 : State Demo.World),
    EmbeddingCache.set (Demo.services []) demo_cache "msg1" "note 47428" [0.5%float]
                       demo_state
    = (Ok c1, st1) /\
    EmbeddingCache.get c1 "msg1" "note 83920" = Some [0.5%float].
Proof.
  split; [discriminate|].
  eexists _, _. split; [reflexivity|]. vm_compute. reflexivity.
Qed.

(** ** Configuration *)

(** C7, as amended.  Loading the configuration takes the configured
    [similarity_threshold] as it is, whatever its value: the plugin is
    built with exactly that threshold, neither rejected nor clamped. *)
Theorem threshold_accepted_as_is (vault : string) (cfg : Config) (t : float) :
  cfg_similarity_threshold cfg = Some t ->
  similarity_threshold (Plugin_init vault cfg) = t.
Proof. intros H. unfold Plugin_init; simpl. rewrite H. reflexivity. Qed.

Lemma threshold_accepted_as_is_witness :
  similarity_threshold
    (Plugin_init "/vault"
       {| cfg_similarity_threshold := Some 0.5%float; cfg_embedding_search := None;
          cfg_extraction_category := None |}) = 0.5%float.
Proof. apply threshold_accepted_as_is. reflexivity. Defined.

(** C7 as stated fails: a threshold of 1.5 is outside the interval [0, 1],
    and the plugin is built with it. *)
Lemma threshold_above_one_accepted :
  PrimFloat.ltb 1 1.5 = true /\
  similarity_threshold
    (Plugin_init "/vault"
       {| cfg_similarity_threshold := Some 1.5%float; cfg_embedding_search := None;
          cfg_extraction_category := None |}) = 1.5%float.
Proof. split; reflexivity. Qed.

(** ** Reasoning about runs *)

Section Runs.
Context {W : Type}.

Section Respects.
Variable R : State W -> State W -> Prop.
Hypothesis HR : Stable R.

Lemma respects_ret {A} (a : A) : respects R (ret a).
Proof. intros st. apply (stable_refl R HR). Qed.

Lemma respects_lift {A} (r : result A) : respects R (lift r).
Proof. intros st. apply (stable_refl R HR). Qed.

Lemma respects_get_self : respects R get_self.
Proof. intros st. apply (stable_refl R HR). Qed.

Lemma respects_call {A} (f : W -> result A * W) : respects R (call f).
Proof.
  intros st. unfold call. destruct (f (world st)) as [r w]. simpl.
  apply (stable_world R HR).
Qed.

Lemma respects_act (a : Action) : respects R (act a).
Proof. intros st. apply (stable_act R HR). Qed.

Lemma respects_bind {A B} (c : M W A) (k : A -> M W B) :
  respects R c -> (forall a, respects R (k a)) -> respects R (bind c k).
Proof.
  intros Hc Hk st. unfold bind. specialize (Hc st).
  destruct (c st) as [[a|e] st1]; simpl in *; [|exact Hc].
  eapply (stable_trans R HR); [exact Hc | apply Hk].
Qed.

Lemma respects_try_except {A} (body : M W A) (handler : exn -> M W A) :
  respects R body -> (forall e, respects R (handler e)) ->
  respects R (try_except body handler).
Proof.
  intros Hb Hh st. unfold try_except. specialize (Hb st).
  destruct (body st) as [[a|e] st1]; simpl in *; [exact Hb|].
  eapply (stable_trans R HR); [exact Hb | apply Hh].
Qed.

End Respects.
End Runs.

Ltac respects_step HR :=
  first
    [ apply (respects_ret _ HR)
    | apply (respects_lift _ HR)
    | apply (respects_get_self _ HR)
    | apply (respects_call _ HR)
    | apply (respects_act _ HR)
    | assumption
    | apply (respects_bind _ HR); [|intros ?]
    | apply (respects_try_except _ HR); [|intros ?]
    | match goal with
      | |- respects _ (if ?b then _ else _) => destruct b
      | |- respects _ (match ?x with _ => _ end) => destruct x
      | |- respects _ (let '(_, _) := ?x in _) => destruct x
      end ].

Section Frames.
Context {W : Type} (sv : Services W).
Variable R : State W -> State W -> Prop.
Hypothesis HR : Stable R.

Lemma respects_cache_init (memory_dir chat_id : string) :
  respects R (EmbeddingCache.__init__ sv memory_dir chat_id).
Proof. intros st. apply (stable_refl R HR). Qed.

Lemma respects_cache_set (c : EmbeddingCache.t) (message_id content : string)
    (embedding : vector) :
  respects R (EmbeddingCache.set sv c message_id content embedding).
Proof. unfold EmbeddingCache.set, EmbeddingCache._save. repeat respects_step HR. Qed.

Lemma respects_store_new (pairs : list (Message * vector)) :
  forall (cache : EmbeddingCache.t) (cached : gmap string vector),
    respects R (store_new sv cache cached pairs).
Proof.
  induction pairs as [|[m emb] rest IH]; intros cache cached; simpl.
  - apply (respects_ret _ HR).
  - apply (respects_bind _ HR); [apply respects_cache_set | intros c'; apply IH].
Qed.

Lemma respects_fetch_embeddings (chat_id : string) (messages : list Message) :
  respects R (fetch_embeddings sv chat_id messages).
Proof.
  unfold fetch_embeddings.
  repeat (apply respects_cache_init || apply respects_store_new || respects_step HR).
Qed.

Lemma respects_compute_relevant_ids (chat_id : string) (messages : list Message)
    (sticky_ids : gset string) :
  respects R (_compute_relevant_ids sv chat_id messages sticky_ids).
Proof.
  unfold _compute_relevant_ids.
  repeat (apply respects_fetch_embeddings || respects_step HR).
Qed.

Lemma respects_on_pipeline_context (ctx : PipelineContext) :
  respects R (_on_pipeline_context sv ctx).
Proof.
  unfold _on_pipeline_context, on_pipeline_context_body.
  repeat (apply respects_compute_relevant_ids || respects_step HR).
Qed.

Lemma respects_emit_highlight_ids (chat_id : string) :
  respects R (_emit_highlight_ids sv chat_id).
Proof.
  unfold _emit_highlight_ids, emit_highlight_ids_body.
  repeat (apply respects_compute_relevant_ids || respects_step HR).
Qed.

Lemma respects_get_topics (chat_id : string) (kw : Kwargs) :
  respects R (get_topics sv chat_id kw).
Proof. unfold get_topics. repeat respects_step HR. Qed.

Lemma respects_extract_topics (messages : list Message) :
  respects R (_extract_topics sv messages).
Proof. unfold _extract_topics. repeat respects_step HR. Qed.

(** The extraction assigns one field of the plugin, [current_chat_id]. *)
Lemma respects_run_topic_extraction (chat_id : string) :
  (forall st c, R st {| world := world st;
                        self := with_current_chat_id (self st) c;
                        actions := actions st |}) ->
  respects R (_run_topic_extraction sv chat_id).
Proof.
  intros Hput. unfold _run_topic_extraction, run_topic_extraction_body.
  assert (Hm : respects R (modify_self (fun p => with_current_chat_id p chat_id)))
    by (intros st; apply Hput).
  repeat (apply respects_extract_topics || respects_step HR).
Qed.

End Frames.

(** ** Filter state and commands *)

Section Commands.
Context {W : Type} (sv : Services W).

Lemma same_selection_stable : Stable (@same_selection W).
Proof.
  split; unfold same_selection; simpl; intros; try reflexivity.
  etransitivity; eassumption.
Qed.

Lemma same_self_stable : Stable (@same_self W).
Proof.
  split; unfold same_self; simpl; intros; try reflexivity.
  etransitivity; eassumption.
Qed.

Lemma set_similarity_mode_on (enabled : EnabledArg) (kw : Kwargs) (st : State W) :
  effective_enabled enabled kw = true ->
  set_similarity_mode enabled kw st
  = (Ok {| mr_status := "success"; mr_embedding_search := true |},
     {| world := world st; self := with_embedding_search (self st) true;
        actions := actions st |}).
Proof.
  unfold effective_enabled, set_similarity_mode. intros ->. reflexivity.
Qed.

Lemma set_similarity_mode_off (enabled : EnabledArg) (kw : Kwargs) (st : State W) :
  effective_enabled enabled kw = false ->
  set_similarity_mode enabled kw st
  = (Ok {| mr_status := "success"; mr_embedding_search := false |},
     {| world := world st;
        self := with_active_topics (with_embedding_search (self st) false) ∅;
        actions := actions st ++ [Emitted (FilterChanged [] (current_chat_id (self st)))] |}).
Proof.
  unfold effective_enabled, set_similarity_mode. intros ->. reflexivity.
Qed.

(** A run of anything but [set_filter] leaves an empty selection empty. *)
Lemma run_op_keeps_empty_selection (op : Op) (st : State W) :
  is_set_filter op = false ->
  active_topics (self st) = ∅ ->
  active_topics (self (run_op sv st op)) = ∅.
Proof.
  intros Hop Hempty. destruct op as [t kw|en kw|c kw|ctx|c|c]; simpl in *.
  - discriminate.
  - destruct (effective_enabled en kw) eqn:He.
    + rewrite set_similarity_mode_on by exact He. exact Hempty.
    + rewrite set_similarity_mode_off by exact He. reflexivity.
  - rewrite (respects_get_topics sv _ same_selection_stable c kw st). exact Hempty.
  - rewrite (respects_on_pipeline_context sv _ same_selection_stable ctx st).
    exact Hempty.
  - rewrite (respects_run_topic_extraction sv _ same_selection_stable c); [exact Hempty|].
    intros; reflexivity.
  - rewrite (respects_emit_highlight_ids sv _ same_selection_stable c st). exact Hempty.
Qed.

Lemma run_ops_keep_empty_selection (ops : list Op) :
  forall st : State W,
    Forall (fun op => is_set_filter op = false) ops ->
    active_topics (self st) = ∅ ->
    active_topics (self (run_ops sv ops st)) = ∅.
Proof.
  induction ops as [|op ops IH]; intros st Hops Hempty; simpl; [exact Hempty|].
  inversion Hops as [|? ? Hop Hrest]; subst.
  apply IH; [exact Hrest|]. apply run_op_keeps_empty_selection; assumption.
Qed.

(** C10.  [set_similarity_mode(True)] assigns [embedding_search] and nothing
    else: the other fields of the plugin, the collaborators and the actions
    are as before.  After [set_similarity_mode(False)] the selection is
    empty, and it is still empty after any later runs among which there is
    no [set_filter] - a [set_similarity_mode(True)] in particular. *)
Theorem set_similarity_mode_true_frame :
  (forall (kw : Kwargs) (st : State W),
     set_similarity_mode (IsBool true) kw st
     = (Ok {| mr_status := "success"; mr_embedding_search := true |},
        {| world := world st; self := with_embedding_search (self st) true;
           actions := actions st |})) /\
  (forall (kw kw' : Kwargs) (st : State W),
     active_topics
       (self (snd (set_similarity_mode (IsBool true) kw'
                     (snd (set_similarity_mode (IsBool false) kw st))))) = ∅) /\
  (forall (kw : Kwargs) (ops : list Op) (st : State W),
     Forall (fun op => is_set_filter op = false) ops ->
     active_topics
       (self (run_ops sv ops (snd (set_similarity_mode (IsBool false) kw st)))) = ∅).
Proof.
  split; [|split].
  - intros kw st. apply set_similarity_mode_on. reflexivity.
  - intros kw kw' st.
    rewrite (set_similarity_mode_off (IsBool false) kw st) by reflexivity.
    rewrite set_similarity_mode_on by reflexivity. reflexivity.
  - intros kw ops st Hops. apply run_ops_keep_empty_selection; [exact Hops|].
    rewrite (set_similarity_mode_off (IsBool false) kw st) by reflexivity.
    reflexivity.
Qed.

End Commands.

Lemma set_similarity_mode_true_frame_witness :
  Forall (fun op => is_set_filter op = false)
         [OpSetSimilarityMode (IsBool true) no_kwargs; OpPipelineContext demo_ctx] /\
  active_topics
    (self (run_ops (Demo.services [])
             [OpSetSimilarityMode (IsBool true) no_kwargs; OpPipelineContext demo_ctx]
             (snd (set_similarity_mode (IsBool false) no_kwargs
                     (demo_filter_state 0.7))))) = ∅.
Proof.
  assert (Hops : Forall (fun op => is_set_filter op = false)
                   [OpSetSimilarityMode (IsBool true) no_kwargs;
                    OpPipelineContext demo_ctx])
    by (repeat constructor).
  split; [exact Hops|].
  exact (proj2 (proj2 (set_similarity_mode_true_frame (Demo.services [])))
           no_kwargs _ (demo_filter_state 0.7) Hops).
Defined.

(** ** The context filter *)

(** *** The scoring loop *)

(** The ids the scoring loop returns are those it started from and, for
    each message, its id when it is sticky or clears the bar. *)
Lemma score_messages_elem_of (sticky_ids : gset string) (threshold : float)
    (topic_embeddings : list vector) (cached : gmap string vector)
    (messages : list Message) :
  forall (included result : list string),
    score_messages sticky_ids threshold topic_embeddings cached included messages
    = Ok result ->
    forall i : string,
      i ∈ result <->
      i ∈ included \/
      exists m : Message,
        m ∈ messages /\ get_id m = i /\
        (i ∈ sticky_ids \/ clears threshold topic_embeddings cached i).
Proof.
  induction messages as [|m rest IH]; intros included result Hrun i; simpl in Hrun.
  - injection Hrun as <-. split; [auto|].
    intros [H|(m & Hm & _)]; [exact H|]. inversion Hm.
  - destruct (decide (get_id m ∈ sticky_ids)) as [Hs|Hs].
    + rewrite (IH _ _ Hrun i), elem_of_app, list_elem_of_singleton. split.
      * intros [[H| ->]|(m' & Hm' & Hid & Hwhy)]; [by left| |].
        -- right. exists m. split; [left|]. auto.
        -- right. exists m'. split; [by right|]. auto.
      * intros [H|(m' & Hm' & Hid & Hwhy)]; [by (left; left)|].
        apply elem_of_cons in Hm' as [->|Hm'].
        -- left. right. by rewrite Hid.
        -- right. exists m'. auto.
    + destruct (cached !! get_id m) as [emb|] eqn:Hemb.
      * destruct (max_sim emb topic_embeddings) as [s|e] eqn:Hmax;
          simpl in Hrun; [|discriminate].
        destruct (PrimFloat.leb threshold s) eqn:Hle.
        -- rewrite (IH _ _ Hrun i), elem_of_app, list_elem_of_singleton. split.
           ++ intros [[H| ->]|(m' & Hm' & Hid & Hwhy)]; [by left| |].
              ** right. exists m. split; [left|]. split; [done|].
                 right. exists emb, s. auto.
              ** right. exists m'. split; [by right|]. auto.
           ++ intros [H|(m' & Hm' & Hid & Hwhy)]; [by (left; left)|].
              apply elem_of_cons in Hm' as [->|Hm'].
              ** left. right. by rewrite Hid.
              ** right. exists m'. auto.
        -- rewrite (IH _ _ Hrun i). split.
           ++ intros [H|(m' & Hm' & Hid & Hwhy)]; [by left|].
              right. exists m'. split; [by right|]. auto.
           ++ intros [H|(m' & Hm' & Hid & Hwhy)]; [by left|].
              apply elem_of_cons in Hm' as [->|Hm'].
              ** destruct Hwhy as [Hin|(emb' & s' & Hc & Hm & Hl)].
                 --- subst i. contradiction.
                 --- subst i. rewrite Hemb in Hc. injection Hc as <-.
                     rewrite Hmax in Hm. injection Hm as <-. congruence.
              ** right. exists m'. auto.
      * rewrite (IH _ _ Hrun i). split.
        -- intros [H|(m' & Hm' & Hid & Hwhy)]; [by left|].
           right. exists m'. split; [by right|]. auto.
        -- intros [H|(m' & Hm' & Hid & Hwhy)]; [by left|].
           apply elem_of_cons in Hm' as [->|Hm'].
           ++ destruct Hwhy as [Hin|(emb' & s' & Hc & _)].
              ** subst i. contradiction.
              ** subst i. rewrite Hemb in Hc. discriminate.
           ++ right. exists m'. auto.
Qed.

(** The embeddings held for sticky ids play no part in the scoring loop. *)
Lemma score_messages_ignores_sticky (sticky_ids : gset string) (threshold : float)
    (topic_embeddings : list vector) (cached cached' : gmap string vector)
    (messages : list Message) :
  (forall i : string, i ∉ sticky_ids -> cached !! i = cached' !! i) ->
  forall included : list string,
    score_messages sticky_ids threshold topic_embeddings cached included messages
    = score_messages sticky_ids threshold topic_embeddings cached' included messages.
Proof.
  intros Hagree. induction messages as [|m rest IH]; intros included; simpl; [done|].
  destruct (decide (get_id m ∈ sticky_ids)) as [Hs|Hs]; [apply IH|].
  rewrite <- (Hagree _ Hs).
  destruct (cached !! get_id m) as [emb|]; [|apply IH].
  destruct (max_sim emb topic_embeddings) as [s|e]; simpl; [|done].
  destruct (PrimFloat.leb threshold s); apply IH.
Qed.

(** *** The runs of the filter *)

Section Filter.
Context {W : Type} (sv : Services W).

Lemma on_pipeline_context_skips (ctx : PipelineContext) (st : State W) :
  (forall chat_id, ~ filter_runs (self st) ctx chat_id) ->
  _on_pipeline_context sv ctx st = (Ok ctx, st).
Proof.
  intros Hskip. unfold _on_pipeline_context, bind, get_self, ret.
  destruct (gate_closed (self st)) eqn:Hgate; [reflexivity|].
  destruct (metadata_chat_id ctx) as [[|a cid]|] eqn:Hcid; try reflexivity.
  destruct (history ctx) as [|m ms] eqn:Hh; [reflexivity|].
  exfalso. apply (Hskip (String a cid)). unfold filter_runs.
  rewrite Hh. repeat split; try done.
Qed.

Lemma on_pipeline_context_runs (ctx : PipelineContext) (chat_id : string)
    (st : State W) :
  filter_runs (self st) ctx chat_id ->
  _on_pipeline_context sv ctx st
  = match on_pipeline_context_body sv ctx chat_id st with
    | (Ok ctx', st') => (Ok ctx', st')
    | (Raise e, st') => filter_failed ctx e st'
    end.
Proof.
  intros (Hgate & Hcid & Hne & Hh).
  unfold _on_pipeline_context, bind at 1. unfold get_self at 1.
  rewrite Hgate, Hcid.
  destruct chat_id as [|a cid]; [done|].
  destruct (history ctx) as [|m ms] eqn:Hh'; [done|].
  reflexivity.
Qed.

Lemma filter_runs_dec (p : Plugin) (ctx : PipelineContext) :
  (exists chat_id, filter_runs p ctx chat_id) \/
  (forall chat_id, ~ filter_runs p ctx chat_id).
Proof.
  unfold filter_runs.
  destruct (gate_closed p); [right; intros c (H & _); discriminate|].
  destruct (metadata_chat_id ctx) as [cid|];
    [|right; intros c (_ & H & _); discriminate].
  destruct (decide (cid = "")) as [->|Hne].
  { right. intros c (_ & H & Hc & _). congruence. }
  destruct (history ctx) as [|m ms]; [right; intros c (_ & _ & _ & H); done|].
  left. exists cid. done.
Qed.

(** What the [try] block returns: the context as it is, or the history
    restricted to the included ids when one of them is not sticky. *)
Lemma on_pipeline_context_body_returns (ctx ctx' : PipelineContext)
    (chat_id : string) (st st' : State W) :
  on_pipeline_context_body sv ctx chat_id st = (Ok ctx', st') ->
  exists (reply : LoadReply) (w1 : W) (embs : list vector * gmap string vector)
         (included : list string),
    svc_load_chat sv chat_id (world st) = (Ok reply, w1) /\
    fetch_embeddings sv chat_id (history ctx) (with_world st w1) = (Ok embs, st') /\
    score_messages (sticky_ids_of reply) (similarity_threshold (self st))
                   (fst embs) (snd embs) [] (history ctx) = Ok included /\
    ((non_sticky (sticky_ids_of reply) included = [] /\ ctx' = ctx) \/
     (non_sticky (sticky_ids_of reply) included <> [] /\
      ctx' = set_history ctx (keep_included included (history ctx)))).
Proof.
  unfold on_pipeline_context_body, bind at 1, call.
  destruct (svc_load_chat sv chat_id (world st)) as [[reply|e] w1] eqn:Hload;
    [|discriminate].
  fold (with_world st w1). fold (sticky_ids_of reply).
  unfold _compute_relevant_ids, bind, get_self, lift.
  pose proof (respects_fetch_embeddings sv _ same_self_stable chat_id (history ctx)
                (with_world st w1)) as Hself.
  destruct (fetch_embeddings sv chat_id (history ctx) (with_world st w1))
    as [[embs|e] st2] eqn:Hfetch; [|discriminate].
  unfold same_self in Hself; simpl in Hself. rewrite Hself.
  destruct (score_messages _ _ _ _ _ _) as [included|e] eqn:Hscore; [|discriminate].
  intros Hret. exists reply, w1, embs, included.
  destruct (non_sticky (sticky_ids_of reply) included) as [|i is_] eqn:Hns;
    unfold ret in Hret; injection Hret as <- <-.
  - repeat split; try done. by left.
  - repeat split; try done. by right.
Qed.

(** Every run of the filter returns: with the context as it is, or with
    the history restricted to the included ids of a run of the scoring
    loop that includes an id that is not sticky. *)
Lemma on_pipeline_context_returns (ctx : PipelineContext) (st : State W) :
  exists (ctx' : PipelineContext) (st' : State W),
    _on_pipeline_context sv ctx st = (Ok ctx', st') /\
    (ctx' = ctx \/
     exists (chat_id : string) (reply : LoadReply) (w1 : W)
            (embs : list vector * gmap string vector) (included : list string),
       metadata_chat_id ctx = Some chat_id /\
       svc_load_chat sv chat_id (world st) = (Ok reply, w1) /\
       fetch_embeddings sv chat_id (history ctx) (with_world st w1) = (Ok embs, st') /\
       score_messages (sticky_ids_of reply) (similarity_threshold (self st))
                      (fst embs) (snd embs) [] (history ctx) = Ok included /\
       non_sticky (sticky_ids_of reply) included <> [] /\
       ctx' = set_history ctx (keep_included included (history ctx))).
Proof.
  destruct (filter_runs_dec (self st) ctx) as [[chat_id Hruns]|Hskip].
  - rewrite (on_pipeline_context_runs ctx chat_id st Hruns).
    destruct (on_pipeline_context_body sv ctx chat_id st) as [[ctx'|e] st'] eqn:Hbody.
    + exists ctx', st'. split; [reflexivity|].
      apply on_pipeline_context_body_returns in Hbody
        as (reply & w1 & embs & included & Hload & Hfetch & Hscore & Hcases).
      destruct Hcases as [[_ ->]|[Hns ->]]; [by left|].
      right. exists chat_id, reply, w1, embs, included.
      destruct Hruns as (_ & Hcid & _). done.
    + eexists _, _. split; [reflexivity|]. by left.
  - exists ctx, st. split; [by apply on_pipeline_context_skips|]. by left.
Qed.

(** C2.  With filtering disabled, or with no topic selected, the filter
    returns the context it was given and does nothing else: the history is
    the input history, message for message, no collaborator is called and
    nothing is logged. *)
Theorem filter_is_noop_when_gate_closed (ctx : PipelineContext) (st : State W) :
  embedding_search (self st) = false \/ active_topics (self st) = ∅ ->
  _on_pipeline_context sv ctx st = (Ok ctx, st).
Proof.
  intros Hgate. apply on_pipeline_context_skips. intros chat_id (Hopen & _).
  unfold gate_closed in Hopen. destruct Hgate as [Hoff|Hempty].
  - rewrite Hoff in Hopen. simpl in Hopen. rewrite orb_true_r in Hopen. discriminate.
  - rewrite bool_decide_eq_true_2 in Hopen by exact Hempty. discriminate.
Qed.

(** C1.  Take a run in which the chat store answers with [reply] and the
    embeddings are fetched as [embs].  If no message of the history whose
    id is not sticky clears the threshold, the filter returns the context
    it was given: the output history is the full input history. *)
Theorem fallback_to_full_history (ctx : PipelineContext) (st st2 : State W)
    (chat_id : string) (reply : LoadReply) (w1 : W)
    (embs : list vector * gmap string vector) :
  metadata_chat_id ctx = Some chat_id ->
  svc_load_chat sv chat_id (world st) = (Ok reply, w1) ->
  fetch_embeddings sv chat_id (history ctx) (with_world st w1) = (Ok embs, st2) ->
  (forall m : Message,
     m ∈ history ctx -> get_id m ∉ sticky_ids_of reply ->
     ~ clears (similarity_threshold (self st)) (fst embs) (snd embs) (get_id m)) ->
  exists st' : State W, _on_pipeline_context sv ctx st = (Ok ctx, st').
Proof.
  intros Hcid Hload Hfetch Hnone.
  destruct (on_pipeline_context_returns ctx st) as (ctx' & st' & Hrun & Hcases).
  exists st'. rewrite Hrun. f_equal. f_equal.
  destruct Hcases as [->|(c & r & w & em & included & Hc & Hl & Hf & Hscore & Hns & _)];
    [reflexivity|].
  exfalso. apply Hns.
  assert (c = chat_id) as -> by congruence.
  rewrite Hload in Hl. injection Hl as <- <-.
  rewrite Hfetch in Hf. injection Hf as <- <-.
  unfold non_sticky.
  destruct (filter (fun i => i ∉ sticky_ids_of reply) included) as [|i rest] eqn:Hfil;
    [reflexivity|].
  assert (Hi : i ∈ filter (fun i => i ∉ sticky_ids_of reply) included)
    by (rewrite Hfil; left).
  apply list_elem_of_filter in Hi as [Hnot Hin].
  apply (score_messages_elem_of _ _ _ _ _ _ _ Hscore) in Hin
    as [Hin|(m & Hm & Hid & [Hs|Hclears])].
  - inversion Hin.
  - contradiction.
  - subst i. exfalso. exact (Hnone m Hm Hnot Hclears).
Qed.

(** C3.  A message of the input history whose id is among the sticky ids
    of the Topic Set the chat store answers with is in the output history,
    whatever the threshold and the embeddings; and the result of the
    scoring loop does not depend on the embeddings held for sticky ids. *)
Theorem sticky_messages_always_included (ctx : PipelineContext) (st : State W)
    (chat_id : string) (reply : LoadReply) (w1 : W) (m : Message) :
  metadata_chat_id ctx = Some chat_id ->
  svc_load_chat sv chat_id (world st) = (Ok reply, w1) ->
  m ∈ history ctx ->
  get_id m ∈ sticky_ids_of reply ->
  (exists (ctx' : PipelineContext) (st' : State W),
     _on_pipeline_context sv ctx st = (Ok ctx', st') /\ m ∈ history ctx') /\
  (forall (threshold : float) (topic_embeddings : list vector)
          (cached cached' : gmap string vector) (included : list string)
          (messages : list Message),
     (forall i : string, i ∉ sticky_ids_of reply -> cached !! i = cached' !! i) ->
     score_messages (sticky_ids_of reply) threshold topic_embeddings cached
                    included messages
     = score_messages (sticky_ids_of reply) threshold topic_embeddings cached'
                      included messages).
Proof.
  intros Hcid Hload Hm Hsticky. split.
  - destruct (on_pipeline_context_returns ctx st) as (ctx' & st' & Hrun & Hcases).
    exists ctx', st'. split; [exact Hrun|].
    destruct Hcases as [->|(c & r & w & em & included & Hc & Hl & Hf & Hscore & _ & ->)];
      [exact Hm|].
    assert (c = chat_id) as -> by congruence.
    rewrite Hload in Hl. injection Hl as <- <-.
    simpl. unfold keep_included. apply list_elem_of_filter. split; [|exact Hm].
    apply elem_of_list_to_set.
    apply (score_messages_elem_of _ _ _ _ _ _ _ Hscore).
    right. exists m. auto.
  - intros threshold topic_embeddings cached cached' included messages Hagree.
    apply score_messages_ignores_sticky. exact Hagree.
Qed.

(** [_compute_relevant_ids] is the fetching of the embeddings followed by
    the scoring loop, with the threshold the plugin has. *)
Lemma compute_relevant_ids_eq (chat_id : string) (messages : list Message)
    (sticky_ids : gset string) (st : State W) :
  _compute_relevant_ids sv chat_id messages sticky_ids st
  = match fetch_embeddings sv chat_id messages st with
    | (Ok embs, st2) =>
        (score_messages sticky_ids (similarity_threshold (self st))
                        (fst embs) (snd embs) [] messages, st2)
    | (Raise e, st2) => (Raise e, st2)
    end.
Proof.
  unfold _compute_relevant_ids, bind, get_self, lift.
  pose proof (respects_fetch_embeddings sv _ same_self_stable chat_id messages st)
    as Hself.
  destruct (fetch_embeddings sv chat_id messages st) as [[embs|e] st2]; [|reflexivity].
  unfold same_self in Hself. simpl in Hself. rewrite Hself. reflexivity.
Qed.

(** The [try] block once the chat store has answered. *)
Lemma on_pipeline_context_body_eq (ctx : PipelineContext) (chat_id : string)
    (st : State W) (reply : LoadReply) (w1 : W) :
  svc_load_chat sv chat_id (world st) = (Ok reply, w1) ->
  on_pipeline_context_body sv ctx chat_id st
  = match _compute_relevant_ids sv chat_id (history ctx) (sticky_ids_of reply)
            (with_world st w1) with
    | (Ok included, st2) =>
        (Ok match non_sticky (sticky_ids_of reply) included with
            | [] => ctx
            | _ :: _ => set_history ctx (keep_included included (history ctx))
            end, st2)
    | (Raise e, st2) => (Raise e, st2)
    end.
Proof.
  intros Hload. unfold on_pipeline_context_body, bind at 1, call. rewrite Hload.
  fold (with_world st w1). fold (sticky_ids_of reply). unfold bind, ret.
  destruct (_compute_relevant_ids sv chat_id (history ctx) (sticky_ids_of reply)
              (with_world st w1)) as [[included|e] st2]; [|reflexivity].
  destruct (non_sticky (sticky_ids_of reply) included); reflexivity.
Qed.

(** The messages kept under the ids a scoring run includes are the
    messages that are sticky or clear the threshold. *)
Lemma keep_included_elem_of (sticky_ids : gset string) (threshold : float)
    (topic_embeddings : list vector) (cached : gmap string vector)
    (h : list Message) (included : list string) :
  score_messages sticky_ids threshold topic_embeddings cached [] h = Ok included ->
  forall m : Message,
    m ∈ keep_included included h <->
    m ∈ h /\
    (get_id m ∈ sticky_ids \/ clears threshold topic_embeddings cached (get_id m)).
Proof.
  intros Hscore m.
  pose proof (score_messages_elem_of _ _ _ _ _ _ _ Hscore) as Hin.
  unfold keep_included. rewrite list_elem_of_filter, elem_of_list_to_set.
  rewrite (Hin (get_id m)). split.
  - intros [[Hnil|(m' & _ & Hid & Hwhy)] Hm]; [inversion Hnil|].
    split; [exact Hm|]. exact Hwhy.
  - intros [Hm Hwhy]. split; [|exact Hm]. right. exists m. auto.
Qed.

(** A run in which a message that is not sticky clears the threshold
    narrows the history to the included ids. *)
Lemma on_pipeline_context_narrows (ctx : PipelineContext) (st st2 : State W)
    (chat_id : string) (reply : LoadReply) (w1 : W)
    (embs : list vector * gmap string vector) (included : list string)
    (m0 : Message) :
  filter_runs (self st) ctx chat_id ->
  svc_load_chat sv chat_id (world st) = (Ok reply, w1) ->
  fetch_embeddings sv chat_id (history ctx) (with_world st w1) = (Ok embs, st2) ->
  score_messages (sticky_ids_of reply) (similarity_threshold (self st))
                 (fst embs) (snd embs) [] (history ctx) = Ok included ->
  m0 ∈ history ctx ->
  get_id m0 ∉ sticky_ids_of reply ->
  clears (similarity_threshold (self st)) (fst embs) (snd embs) (get_id m0) ->
  _on_pipeline_context sv ctx st
  = (Ok (set_history ctx (keep_included included (history ctx))), st2).
Proof.
  intros Hruns Hload Hfetch Hscore Hm0 Hns0 Hclears0.
  assert (H0 : get_id m0 ∈ included).
  { apply (score_messages_elem_of _ _ _ _ _ _ _ Hscore). right. exists m0. auto. }
  rewrite (on_pipeline_context_runs ctx chat_id st Hruns).
  rewrite (on_pipeline_context_body_eq ctx chat_id st reply w1 Hload).
  rewrite compute_relevant_ids_eq, Hfetch. simpl. rewrite Hscore.
  destruct (non_sticky (sticky_ids_of reply) included) as [|i rest] eqn:Hnon;
    [|reflexivity].
  exfalso. unfold non_sticky in Hnon.
  eapply (filter_nil_not_elem_of _ _ _ Hnon Hns0). exact H0.
Qed.

(** C4.  Every run of the filter returns, and its output history is a
    subsequence of the input history: the messages kept are in their
    original order, none is repeated more often than in the input, and
    none is added; the rest of the context is unchanged.  The output is
    either the input history as it is, or exactly its messages that are
    sticky or whose embedding clears the threshold, sticky and selected
    messages merged.  And it is the latter whenever the filter runs, the
    scoring raises nothing and a message that is not sticky clears the
    threshold. *)
Theorem filter_output_is_subsequence (ctx : PipelineContext) (st : State W) :
  (exists (ctx' : PipelineContext) (st' : State W),
     _on_pipeline_context sv ctx st = (Ok ctx', st') /\
     history ctx' `sublist_of` history ctx /\
     (forall m : Message, m ∈ history ctx' -> m ∈ history ctx) /\
     (NoDup (history ctx) -> NoDup (history ctx')) /\
     metadata_chat_id ctx' = metadata_chat_id ctx /\
     (ctx' = ctx \/
      exists (chat_id : string) (reply : LoadReply) (w1 : W)
             (embs : list vector * gmap string vector),
        metadata_chat_id ctx = Some chat_id /\
        svc_load_chat sv chat_id (world st) = (Ok reply, w1) /\
        fetch_embeddings sv chat_id (history ctx) (with_world st w1) = (Ok embs, st') /\
        forall m : Message,
          m ∈ history ctx' <->
          m ∈ history ctx /\
          (get_id m ∈ sticky_ids_of reply \/
           clears (similarity_threshold (self st)) (fst embs) (snd embs) (get_id m)))) /\
  (forall (chat_id : string) (reply : LoadReply) (w1 : W) (st2 : State W)
          (embs : list vector * gmap string vector) (included : list string)
          (m0 : Message),
     filter_runs (self st) ctx chat_id ->
     svc_load_chat sv chat_id (world st) = (Ok reply, w1) ->
     fetch_embeddings sv chat_id (history ctx) (with_world st w1) = (Ok embs, st2) ->
     score_messages (sticky_ids_of reply) (similarity_threshold (self st))
                    (fst embs) (snd embs) [] (history ctx) = Ok included ->
     m0 ∈ history ctx ->
     get_id m0 ∉ sticky_ids_of reply ->
     clears (similarity_threshold (self st)) (fst embs) (snd embs) (get_id m0) ->
     exists ctx' : PipelineContext,
       _on_pipeline_context sv ctx st = (Ok ctx', st2) /\
       history ctx' `sublist_of` history ctx /\
       metadata_chat_id ctx' = metadata_chat_id ctx /\
       forall m : Message,
         m ∈ history ctx' <->
         m ∈ history ctx /\
         (get_id m ∈ sticky_ids_of reply \/
          clears (similarity_threshold (self st)) (fst embs) (snd embs) (get_id m))).
Proof.
  split.
  - destruct (on_pipeline_context_returns ctx st) as (ctx' & st' & Hrun & Hcases).
    exists ctx', st'. split; [exact Hrun|].
    assert (Hsub : history ctx' `sublist_of` history ctx /\
                   metadata_chat_id ctx' = metadata_chat_id ctx).
    { destruct Hcases as [->|(c & r & w & em & included & _ & _ & _ & _ & _ & ->)];
        [done|].
      split; [|reflexivity]. simpl. unfold keep_included. apply sublist_filter. }
    destruct Hsub as [Hsub Hmeta]. repeat split; try assumption.
    + intros m Hm. exact (elem_of_sublist _ _ m Hm Hsub).
    + intros Hnd. exact (sublist_NoDup _ _ Hnd Hsub).
    + destruct Hcases as [->|(c & r & w & em & included & Hc & Hl & Hf & Hscore & _ & ->)];
        [by left|].
      right. exists c, r, w, em.
      split; [exact Hc|]. split; [exact Hl|]. split; [exact Hf|].
      intros m. simpl. apply (keep_included_elem_of _ _ _ _ _ _ Hscore m).
  - intros chat_id reply w1 st2 embs included m0 Hruns Hload Hfetch Hscore Hm0 Hns0 Hcl0.
    exists (set_history ctx (keep_included included (history ctx))).
    split; [|split; [|split]].
    + exact (on_pipeline_context_narrows ctx st st2 chat_id reply w1 embs included m0
               Hruns Hload Hfetch Hscore Hm0 Hns0 Hcl0).
    + simpl. unfold keep_included. apply sublist_filter.
    + reflexivity.
    + intros m. simpl. apply (keep_included_elem_of _ _ _ _ _ _ Hscore m).
Qed.

(** An exception raised by the chat store, while the embeddings are
    fetched (by the embedding provider or on writing the cache file), or
    by the scoring loop, is raised by the [try] block. *)
Lemma on_pipeline_context_body_raises (ctx : PipelineContext) (chat_id : string)
    (st : State W) (e : exn) :
  (exists w1 : W, svc_load_chat sv chat_id (world st) = (Raise e, w1)) \/
  (exists (reply : LoadReply) (w1 : W) (st1 : State W),
     svc_load_chat sv chat_id (world st) = (Ok reply, w1) /\
     fetch_embeddings sv chat_id (history ctx) (with_world st w1) = (Raise e, st1)) \/
  (exists (reply : LoadReply) (w1 : W) (embs : list vector * gmap string vector)
          (st1 : State W),
     svc_load_chat sv chat_id (world st) = (Ok reply, w1) /\
     fetch_embeddings sv chat_id (history ctx) (with_world st w1) = (Ok embs, st1) /\
     score_messages (sticky_ids_of reply) (similarity_threshold (self st))
                    (fst embs) (snd embs) [] (history ctx) = Raise e) ->
  exists st1 : State W, on_pipeline_context_body sv ctx chat_id st = (Raise e, st1).
Proof.
  unfold on_pipeline_context_body, bind at 1, call.
  intros [(w1 & Hload)|[(reply & w1 & st1 & Hload & Hfetch)
                       |(reply & w1 & embs & st1 & Hload & Hfetch & Hscore)]];
    rewrite Hload; [eauto| |];
    fold (with_world st w1); fold (sticky_ids_of reply);
    unfold _compute_relevant_ids, bind, get_self, lift; rewrite Hfetch; [eauto|].
  pose proof (respects_fetch_embeddings sv _ same_self_stable chat_id (history ctx)
                (with_world st w1)) as Hself.
  rewrite Hfetch in Hself. unfold same_self in Hself; simpl in Hself.
  rewrite Hself, Hscore. eauto.
Qed.

(** The embedding provider failing on the topic labels is one such case. *)
Lemma fetch_embeddings_provider_error (chat_id : string) (messages : list Message)
    (st : State W) (e : exn) (w : W) :
  svc_embed sv (elements (active_topics (self st))) (world st) = (Raise e, w) ->
  fetch_embeddings sv chat_id messages st = (Raise e, with_world st w).
Proof.
  intros Hembed. unfold fetch_embeddings, bind, get_self, call.
  rewrite Hembed. reflexivity.
Qed.

(** C8.  No run of the filter raises.  When the [try] block raises,
    whatever the exception, the filter logs it and returns the context it
    was given, with the full input history; and the [try] block raises
    whenever the chat store, the fetching of the embeddings (embedding
    provider, cache file) or the scoring loop does. *)
Theorem filter_degrades_to_full_history :
  (forall (ctx : PipelineContext) (st : State W),
     exists (ctx' : PipelineContext) (st' : State W),
       _on_pipeline_context sv ctx st = (Ok ctx', st')) /\
  (forall (ctx : PipelineContext) (chat_id : string) (st st1 : State W) (e : exn),
     filter_runs (self st) ctx chat_id ->
     on_pipeline_context_body sv ctx chat_id st = (Raise e, st1) ->
     _on_pipeline_context sv ctx st
     = (Ok ctx, {| world := world st1; self := self st1;
                   actions := actions st1 ++ [Logged (ErrorContextInjectionFailed e)] |})) /\
  (forall (ctx : PipelineContext) (chat_id : string) (st : State W) (e : exn),
     filter_runs (self st) ctx chat_id ->
     (exists w1 : W, svc_load_chat sv chat_id (world st) = (Raise e, w1)) \/
     (exists (reply : LoadReply) (w1 : W) (st1 : State W),
        svc_load_chat sv chat_id (world st) = (Ok reply, w1) /\
        fetch_embeddings sv chat_id (history ctx) (with_world st w1) = (Raise e, st1)) \/
     (exists (reply : LoadReply) (w1 : W) (embs : list vector * gmap string vector)
             (st1 : State W),
        svc_load_chat sv chat_id (world st) = (Ok reply, w1) /\
        fetch_embeddings sv chat_id (history ctx) (with_world st w1) = (Ok embs, st1) /\
        score_messages (sticky_ids_of reply) (similarity_threshold (self st))
                       (fst embs) (snd embs) [] (history ctx) = Raise e) ->
     exists st' : State W,
       _on_pipeline_context sv ctx st = (Ok ctx, st') /\
       last (actions st') = Some (Logged (ErrorContextInjectionFailed e))).
Proof.
  split; [|split].
  - intros ctx st.
    destruct (on_pipeline_context_returns ctx st) as (ctx' & st' & Hrun & _).
    eauto.
  - intros ctx chat_id st st1 e Hruns Hbody.
    rewrite (on_pipeline_context_runs ctx chat_id st Hruns), Hbody. reflexivity.
  - intros ctx chat_id st e Hruns Herr.
    destruct (on_pipeline_context_body_raises ctx chat_id st e Herr) as [st1 Hbody].
    rewrite (on_pipeline_context_runs ctx chat_id st Hruns), Hbody.
    eexists. split; [reflexivity|]. simpl. apply last_snoc.
Qed.

End Filter.

(** ** Topic extraction *)

Section Extraction.
Context {W : Type} (sv : Services W).

(** What [_extract_topics] comes to, by the provider's answer and the
    outcome of parsing it. *)
Lemma extract_topics_provider_error (messages : list Message) (st : State W)
    (e : exn) (w2 : W) :
  svc_complete sv (llm_messages_of messages) (extraction_category (self st)) (world st)
  = (Raise e, w2) ->
  _extract_topics sv messages st = (Raise e, with_world st w2).
Proof.
  intros Hc. unfold _extract_topics, bind, get_self, call. rewrite Hc. reflexivity.
Qed.

Lemma extract_topics_parsed (messages : list Message) (st : State W)
    (content : string) (w2 : W) :
  svc_complete sv (llm_messages_of messages) (extraction_category (self st)) (world st)
  = (Ok content, w2) ->
  _extract_topics sv messages st
  = (rbind (svc_json_loads sv (strip_fence content)) (fun data => Ok (topics_of_data data)),
     with_world st w2).
Proof.
  intros Hc. unfold _extract_topics, bind, get_self, call, lift, ret. rewrite Hc.
  simpl. destruct (svc_json_loads sv (strip_fence content)); reflexivity.
Qed.

(** It hands one chat document to the store, first of all, and with the
    handler of the [try] it returns. *)
Lemma after_extraction_outcome (chat_id : string) (data : ChatData)
    (topics : list Topic) (total : nat) (st : State W) :
  exists (st' : State W) (rest : list Action),
    try_except (after_extraction sv chat_id data topics total)
               (fun e => act (Logged (ErrorExtractionFailed chat_id e))) st
    = (Ok tt, st') /\
    actions st' = actions st ++ SavedChat chat_id data :: rest /\
    saved_topic_sets rest = [].
Proof.
  unfold after_extraction, try_except, bind, act, call, modify_self, lift; simpl.
  destruct (svc_save_chat sv chat_id data (world st)) as [[[]|e] w]; simpl.
  - destruct (labels_of topics) as [labels|e]; simpl;
      eexists _, _; rewrite <- !app_assoc; simpl; repeat split; reflexivity.
  - eexists _, _; rewrite <- !app_assoc; simpl; repeat split; reflexivity.
Qed.


Lemma saved_topic_sets_app (l1 l2 : list Action) :
  saved_topic_sets (l1 ++ l2) = saved_topic_sets l1 ++ saved_topic_sets l2.
Proof. unfold saved_topic_sets. apply flat_map_app. Qed.

(** Every run returns.  When the answer was not parsed the run saves
    nothing and leaves the plugin as it is; when it was, the run hands the
    loaded document, with the Topic Set built from the answer, to
    [memory.save_chat], and no other document. *)
Lemma run_topic_extraction_cases (chat_id : string) (st : State W) :
  exists st' : State W,
    _run_topic_extraction sv chat_id st = (Ok tt, st') /\
    match parsed_answer sv chat_id st with
    | None =>
        exists w' : W,
          st' = with_world st w' \/
          exists e : exn,
            st' = {| world := w'; self := self st;
                     actions := actions st ++ [Logged (ErrorExtractionFailed chat_id e)] |}
    | Some data =>
        exists (reply : LoadReply) (w1 : W) (rest : list Action),
          svc_load_chat sv chat_id (world st) = (Ok reply, w1) /\
          actions st'
          = actions st
            ++ SavedChat chat_id (set_topics (reply_data reply) (topics_of_data data))
               :: rest /\
          saved_topic_sets rest = []
    end.
Proof.
  unfold _run_topic_extraction, run_topic_extraction_body, parsed_answer.
  unfold try_except at 1. unfold bind at 1. unfold call at 1.
  destruct (svc_load_chat sv chat_id (world st)) as [[reply|e] w1] eqn:Hload.
  2:{ eexists. split; [reflexivity|]. exists w1. right. exists e. reflexivity. }
  fold (with_world st w1).
  destruct (status_not_success reply) eqn:Hstatus.
  { eexists. split; [reflexivity|]. exists w1. by left. }
  destruct (default [] (cd_messages (reply_data reply))) as [|m ms] eqn:Hmsgs.
  { eexists. split; [reflexivity|]. exists w1. by left. }
  unfold bind at 1.
  destruct (svc_complete sv (llm_messages_of (m :: ms)) (extraction_category (self st)) w1)
    as [[content|e] w2] eqn:Hcomplete.
  - rewrite (extract_topics_parsed (m :: ms) (with_world st w1) content w2 Hcomplete).
    destruct (svc_json_loads sv (strip_fence content)) as [data|e] eqn:Hparse; simpl.
    + destruct (after_extraction_outcome chat_id
                  (set_topics (reply_data reply) (topics_of_data data))
                  (topics_of_data data) (length (m :: ms)) (with_world st w2))
        as (st' & rest & Hrun & Hacts & Hrest).
      exists st'. split; [exact Hrun|]. exists reply, w1, rest. done.
    + eexists. split; [reflexivity|]. exists w2. right. exists e. reflexivity.
  - rewrite (extract_topics_provider_error (m :: ms) (with_world st w1) e w2 Hcomplete).
    eexists. split; [reflexivity|]. exists w2. right. exists e. reflexivity.
Qed.

Lemma run_topic_extraction_unparsed (chat_id : string) (st : State W) :
  parsed_answer sv chat_id st = None ->
  exists w' : W,
    _run_topic_extraction sv chat_id st = (Ok tt, with_world st w') \/
    exists e : exn,
      _run_topic_extraction sv chat_id st
      = (Ok tt, {| world := w'; self := self st;
                   actions := actions st ++ [Logged (ErrorExtractionFailed chat_id e)] |}).
Proof.
  intros Hnone. destruct (run_topic_extraction_cases chat_id st) as (st' & Hrun & Hcase).
  rewrite Hnone in Hcase. destruct Hcase as [w' [->|[e ->]]]; exists w'.
  - by left.
  - right. by exists e.
Qed.

Lemma run_topic_extraction_saves (chat_id : string) (st : State W)
    (data : ExtractionData) :
  parsed_answer sv chat_id st = Some data ->
  saved_topic_sets (actions (snd (_run_topic_extraction sv chat_id st)))
  = saved_topic_sets (actions st) ++ [topics_of_data data].
Proof.
  intros Hsome. destruct (run_topic_extraction_cases chat_id st) as (st' & Hrun & Hcase).
  rewrite Hsome in Hcase. destruct Hcase as (reply & w1 & rest & _ & Hacts & Hrest).
  rewrite Hrun. simpl. rewrite Hacts, saved_topic_sets_app. simpl.
  rewrite Hrest. reflexivity.
Qed.


(** *** Sticky entries of the Topic Sets saved *)

Lemma filter_is_sticky_none (topics : list Topic) :
  Forall (fun t => is_sticky t = false) topics -> List.filter is_sticky topics = [].
Proof.
  induction 1 as [|t ts Ht _ IH]; simpl; [reflexivity|]. rewrite Ht. exact IH.
Qed.

(** The Topic Set [_extract_topics] builds from the parsed answer: the
    topics returned, and the sticky entry when ids were flagged. *)
Lemma topics_of_data_eq (data : ExtractionData) :
  topics_of_data data
  = default [] (ed_topics data)
    ++ match default [] (ed_sticky_message_ids data) with
       | [] => []
       | _ :: _ => [sticky_entry (default [] (ed_sticky_message_ids data))]
       end.
Proof.
  unfold topics_of_data.
  destruct (default [] (ed_sticky_message_ids data)); [|reflexivity].
  symmetry. apply app_nil_r.
Qed.

Lemma sticky_of_topics_of_data (data : ExtractionData) :
  Forall (fun t => is_sticky t = false) (default [] (ed_topics data)) ->
  List.filter is_sticky (topics_of_data data)
  = match default [] (ed_sticky_message_ids data) with
    | [] => []
    | _ :: _ => [sticky_entry (default [] (ed_sticky_message_ids data))]
    end.
Proof.
  intros Hplain. rewrite topics_of_data_eq, List.filter_app.
  rewrite (filter_is_sticky_none _ Hplain).
  destruct (default [] (ed_sticky_message_ids data)); reflexivity.
Qed.

Lemma sticky_count_topics_of_data (data : ExtractionData) :
  Forall (fun t => is_sticky t = false) (default [] (ed_topics data)) ->
  sticky_count (topics_of_data data) <= 1.
Proof.
  intros Hplain. unfold sticky_count. rewrite (sticky_of_topics_of_data _ Hplain).
  destruct (default [] (ed_sticky_message_ids data)); simpl; lia.
Qed.

(** The sticky entries of the Topic Set built from an answer: those the
    answer flagged itself, and the synthesized one when ids were flagged. *)
Lemma sticky_entries_of_topics_of_data (data : ExtractionData) :
  List.filter is_sticky (topics_of_data data)
  = List.filter is_sticky (default [] (ed_topics data))
    ++ match default [] (ed_sticky_message_ids data) with
       | [] => []
       | _ :: _ => [sticky_entry (default [] (ed_sticky_message_ids data))]
       end.
Proof.
  rewrite topics_of_data_eq, List.filter_app.
  destruct (default [] (ed_sticky_message_ids data)); reflexivity.
Qed.

Lemma sticky_count_of_topics_of_data (data : ExtractionData) :
  sticky_count (topics_of_data data)
  = sticky_count (default [] (ed_topics data))
    + match default [] (ed_sticky_message_ids data) with [] => 0 | _ :: _ => 1 end.
Proof.
  unfold sticky_count. rewrite sticky_entries_of_topics_of_data, length_app.
  destruct (default [] (ed_sticky_message_ids data)); reflexivity.
Qed.

(** The Topic Sets saved by successive extractions are those saved before
    and, for each answer parsed, the Topic Set built from that answer. *)
Lemma extractions_saved (chat_ids : list string) :
  forall st : State W,
    saved_topic_sets (actions (run_ops sv (map OpTopicExtraction chat_ids) st))
    = saved_topic_sets (actions st) ++ map topics_of_data (parsed_answers sv chat_ids st).
Proof.
  induction chat_ids as [|c cs IH]; intros st; simpl.
  - symmetry. apply app_nil_r.
  - fold (run_ops sv (map OpTopicExtraction cs) (snd (_run_topic_extraction sv c st))).
    rewrite IH, map_app, app_assoc. f_equal.
    destruct (parsed_answer sv c st) as [data|] eqn:Hparsed; simpl.
    + apply run_topic_extraction_saves. exact Hparsed.
    + rewrite app_nil_r.
      destruct (run_topic_extraction_unparsed c st Hparsed) as [w' [Hrun|[e Hrun]]];
        rewrite Hrun; simpl; [reflexivity|].
      rewrite saved_topic_sets_app. simpl. apply app_nil_r.
Qed.

(** C9, as amended.  Take an extraction that gets as far as saving: the
    chat is loaded with messages, the provider answers and the answer
    parses.  The chat document handed to [memory.save_chat] is the loaded
    one with its Topic Set replaced by the topics of the answer followed,
    when ids were flagged, by one synthesized sticky entry - nothing of the
    previous Topic Set is kept - and nothing else is saved by the run.  The
    synthesized entry comes last, its [message_ids] are the flagged ids and
    its [count] is their number; the sticky entries of the Topic Set are
    the topics the answer flagged itself and that entry.  If none of the
    topics of the answer is itself flagged sticky, the Topic Set saved has
    at most one sticky entry: none when no id was flagged, and otherwise
    the synthesized one.  After any number of extractions, the Topic Sets
    saved are those saved before and, for each answer parsed, the Topic
    Set built from that answer alone; so when none of the answers parsed
    flags a topic of its own, every Topic Set saved has at most one sticky
    entry. *)
Theorem one_sticky_entry_after_extraction :
  (forall (chat_id : string) (st : State W) (reply : LoadReply) (w1 w2 : W)
          (m : Message) (ms : list Message) (content : string)
          (data : ExtractionData),
     svc_load_chat sv chat_id (world st) = (Ok reply, w1) ->
     status_not_success reply = false ->
     cd_messages (reply_data reply) = Some (m :: ms) ->
     svc_complete sv (llm_messages_of (m :: ms)) (extraction_category (self st)) w1
     = (Ok content, w2) ->
     svc_json_loads sv (strip_fence content) = Ok data ->
     let flagged := default [] (ed_sticky_message_ids data) in
     let saved :=
       default [] (ed_topics data)
       ++ match flagged with [] => [] | _ :: _ => [sticky_entry flagged] end in
     (exists (st' : State W) (rest : list Action),
        _run_topic_extraction sv chat_id st = (Ok tt, st') /\
        actions st'
        = actions st ++ SavedChat chat_id (set_topics (reply_data reply) saved) :: rest /\
        saved_topic_sets rest = []) /\
     (flagged <> [] ->
      exists t : Topic,
        last saved = Some t /\ is_sticky t = true /\
        t_message_ids t = Some flagged /\
        t_count t = Some (Z.of_nat (length flagged))) /\
     List.filter is_sticky saved
     = List.filter is_sticky (default [] (ed_topics data))
       ++ match flagged with [] => [] | _ :: _ => [sticky_entry flagged] end /\
     (no_flagged_topic data ->
      sticky_count saved <= 1 /\
      (flagged = [] -> sticky_count saved = 0) /\
      (flagged <> [] ->
       exists t : Topic,
         List.filter is_sticky saved = [t] /\
         t_message_ids t = Some flagged /\
         t_count t = Some (Z.of_nat (length flagged))))) /\
  (forall (chat_ids : list string) (st : State W),
     saved_topic_sets (actions (run_ops sv (map OpTopicExtraction chat_ids) st))
     = saved_topic_sets (actions st) ++ map topics_of_data (parsed_answers sv chat_ids st) /\
     (Forall no_flagged_topic (parsed_answers sv chat_ids st) ->
      Forall (fun topics => sticky_count topics <= 1) (saved_topic_sets (actions st)) ->
      Forall (fun topics => sticky_count topics <= 1)
             (saved_topic_sets
                (actions (run_ops sv (map OpTopicExtraction chat_ids) st))))).
Proof.
  split.
  - intros chat_id st reply w1 w2 m ms content data Hload Hstatus Hmsgs Hc Hparse
           flagged saved.
    assert (Hsaved : saved = topics_of_data data)
      by (symmetry; apply topics_of_data_eq).
    assert (Hentries : List.filter is_sticky saved
                       = List.filter is_sticky (default [] (ed_topics data))
                         ++ match flagged with
                            | [] => []
                            | _ :: _ => [sticky_entry flagged]
                            end)
      by (rewrite Hsaved; apply sticky_entries_of_topics_of_data).
    split; [|split; [|split]].
    + destruct (after_extraction_outcome chat_id
                  (set_topics (reply_data reply) (topics_of_data data))
                  (topics_of_data data) (length (m :: ms)) (with_world st w2))
        as (st' & rest & Hrun & Hacts & Hrest).
      exists st', rest. rewrite Hsaved. split; [|split; assumption].
      rewrite <- Hrun.
      unfold _run_topic_extraction, run_topic_extraction_body, try_except.
      unfold bind at 1. unfold call at 1. rewrite Hload, Hstatus, Hmsgs. simpl.
      unfold bind at 1. fold (with_world st w1).
      rewrite (extract_topics_parsed (m :: ms) (with_world st w1) content w2 Hc).
      rewrite Hparse. reflexivity.
    + intros Hsome. exists (sticky_entry flagged). unfold saved.
      destruct flagged; [done|]. rewrite last_snoc. repeat split.
    + exact Hentries.
    + intros Hplain.
      assert (Hsticky : List.filter is_sticky saved
                        = match flagged with
                          | [] => []
                          | _ :: _ => [sticky_entry flagged]
                          end)
        by (rewrite Hsaved; apply (sticky_of_topics_of_data _ Hplain)).
      split; [|split].
      * rewrite Hsaved. apply (sticky_count_topics_of_data _ Hplain).
      * intros Hnone. unfold sticky_count. rewrite Hsticky, Hnone. reflexivity.
      * intros Hsome. exists (sticky_entry flagged). rewrite Hsticky.
        destruct flagged; [done|]. repeat split.
  - intros chat_ids st. split; [apply extractions_saved|].
    intros Hplain Hbefore. rewrite extractions_saved.
    apply Forall_app. split; [exact Hbefore|].
    apply Forall_map. eapply Forall_impl; [exact Hplain|].
    intros data Hdata. simpl. apply sticky_count_topics_of_data. exact Hdata.
Qed.

End Extraction.

(** ** The properties on the plan's test scenarios *)

Lemma filter_is_noop_when_gate_closed_witness :
  _on_pipeline_context (Demo.services []) demo_ctx demo_disabled_state
  = (Ok demo_ctx, demo_disabled_state).
Proof.
  apply filter_is_noop_when_gate_closed. left. reflexivity.
Defined.

(** [test_context_injection_filters_by_similarity]: of the two messages,
    the one close to the selected topic is kept. *)
Example filter_keeps_similar_message :
  fst (_on_pipeline_context (Demo.services []) demo_ctx (demo_filter_state 0.7))
  = Ok {| history := [msg "m1" "How does async work in Python?"];
          metadata_chat_id := Some "chat_test" |}.
Proof. vm_compute. reflexivity. Qed.

Lemma filter_output_is_subsequence_witness :
  exists ctx' : PipelineContext,
    fst (_on_pipeline_context (Demo.services []) demo_ctx (demo_filter_state 0.7))
    = Ok ctx' /\
    history ctx' `sublist_of` demo_history /\
    msg "m1" "How does async work in Python?" ∈ history ctx'.
Proof.
  set (sv := Demo.services []).
  set (r := fetch_embeddings sv "chat_test" demo_history
              (with_world (demo_filter_state 0.7) (world (demo_filter_state 0.7)))).
  destruct (proj2 (filter_output_is_subsequence sv demo_ctx (demo_filter_state 0.7))
              "chat_test"
              {| lr_status := Some "success";
                 lr_data := Some {| cd_messages := Some demo_history;
                                    cd_topics := Some [plain_topic "Python Async" 1] |} |}
              (world (demo_filter_state 0.7)) (snd r)
              (match fst r with Ok embs => embs | Raise _ => ([], ∅) end)
              ["m1"] (msg "m1" "How does async work in Python?"))
    as (ctx' & Hrun & Hsub & _ & Hmem).
  - unfold filter_runs. repeat split; discriminate.
  - vm_compute. reflexivity.
  - vm_compute. reflexivity.
  - vm_compute. reflexivity.
  - left.
  - refine (bool_decide_unpack _ _). vm_compute. exact I.
  - eexists _, _. repeat split; vm_compute; reflexivity.
  - exists ctx'. rewrite Hrun. split; [reflexivity|]. split; [exact Hsub|].
    apply Hmem. split; [left|]. right.
    eexists _, _. repeat split; vm_compute; reflexivity.
Defined.

Lemma fallback_to_full_history_witness :
  exists st' : State Demo.World,
    _on_pipeline_context (Demo.services []) demo_fallback_ctx demo_fallback_state
    = (Ok demo_fallback_ctx, st').
Proof.
  set (sv := Demo.services []).
  set (r := fetch_embeddings sv "c1" (history demo_fallback_ctx)
              (with_world demo_fallback_state (world demo_fallback_state))).
  apply (fallback_to_full_history sv demo_fallback_ctx demo_fallback_state (snd r) "c1"
           {| lr_status := Some "success"; lr_data := Some demo_fallback_chat |}
           (world demo_fallback_state)
           (match fst r with Ok embs => embs | Raise _ => ([], ∅) end)).
  - reflexivity.
  - vm_compute. reflexivity.
  - vm_compute. reflexivity.
  - intros m Hm _ (emb & s & Hc & Hmax & Hle).
    apply list_elem_of_singleton in Hm. subst m.
    vm_compute in Hc. injection Hc as <-.
    vm_compute in Hmax. injection Hmax as <-.
    vm_compute in Hle. discriminate.
Defined.

Lemma sticky_messages_always_included_witness :
  exists (ctx' : PipelineContext) (st' : State Demo.World),
    _on_pipeline_context (Demo.services []) demo_sticky_ctx demo_sticky_state
    = (Ok ctx', st') /\
    msg "sticky1" "be concise" ∈ history ctx'.
Proof.
  apply (sticky_messages_always_included (Demo.services []) demo_sticky_ctx
           demo_sticky_state "c1"
           {| lr_status := Some "success"; lr_data := Some demo_sticky_chat |}
           (world demo_sticky_state) (msg "sticky1" "be concise")).
  - reflexivity.
  - vm_compute. reflexivity.
  - left.
  - refine (bool_decide_unpack _ _). vm_compute. exact I.
Defined.

(** There the filter keeps the sticky message, which scores 0, and the
    message that scores 1, and drops the other one. *)
Example filter_keeps_sticky_message :
  fst (_on_pipeline_context (Demo.services []) demo_sticky_ctx demo_sticky_state)
  = Ok {| history := [msg "sticky1" "be concise"; msg "m1" "something about python async"];
          metadata_chat_id := Some "c1" |}.
Proof. vm_compute. reflexivity. Qed.

Lemma filter_degrades_to_full_history_witness :
  _on_pipeline_context (Demo.services []) demo_ctx demo_outage_state
  = (Ok demo_ctx,
     {| world :=
          {| Demo.chats := Demo.chats (world demo_outage_state); Demo.files := ∅;
             Demo.embed_answers := []; Demo.complete_answers := [] |};
        self := self demo_outage_state;
        actions := [Logged (ErrorContextInjectionFailed
                              (ProviderError "embedding provider timed out"))] |}).
Proof.
  apply (proj1 (proj2 (filter_degrades_to_full_history (Demo.services [])))
           demo_ctx "chat_test" demo_outage_state
           {| world :=
                {| Demo.chats := Demo.chats (world demo_outage_state); Demo.files := ∅;
                   Demo.embed_answers := []; Demo.complete_answers := [] |};
              self := self demo_outage_state; actions := [] |}
           (ProviderError "embedding provider timed out")).
  - unfold filter_runs. repeat split; discriminate.
  - vm_compute. reflexivity.
Defined.



(** [test_extract_topics_parses_llm_response], through a whole run: the
    Topic Set saved replaces the earlier one. *)
Example extraction_saves_topics :
  saved_topic_sets
    (actions (snd (_run_topic_extraction (Demo.services demo_json) "chat_test"
                     (demo_extraction_state (Ok demo_answer)))))
  = [ [ plain_topic "Python Async" 2; sticky_entry ["a1b2"] ] ].
Proof. vm_compute. reflexivity. Qed.

Lemma one_sticky_entry_after_extraction_witness :
  (sticky_count [ plain_topic "Python Async" 2; sticky_entry ["a1b2"] ] <= 1 /\
   exists (st' : State Demo.World) (rest : list Action),
     _run_topic_extraction (Demo.services demo_json) "chat_test"
       (demo_extraction_state (Ok demo_answer)) = (Ok tt, st') /\
     actions st'
     = SavedChat "chat_test"
         (set_topics demo_chat [ plain_topic "Python Async" 2; sticky_entry ["a1b2"] ])
       :: rest) /\
  saved_topic_sets
    (actions (run_ops (Demo.services demo_json)
                (map OpTopicExtraction ["chat_test"; "chat_test"])
                (demo_extractions_state [Ok demo_answer; Ok demo_second_answer])))
  = [ [ plain_topic "Python Async" 2; sticky_entry ["a1b2"] ];
      [ plain_topic "Coroutines" 3 ] ] /\
  Forall (fun topics => sticky_count topics <= 1)
         (saved_topic_sets
            (actions (run_ops (Demo.services demo_json)
                        (map OpTopicExtraction ["chat_test"; "chat_test"])
                        (demo_extractions_state [Ok demo_answer; Ok demo_second_answer])))).
Proof.
  pose proof (one_sticky_entry_after_extraction (Demo.services demo_json))
    as [Hone Hmany].
  split; [|].
  - destruct (Hone "chat_test" (demo_extraction_state (Ok demo_answer))
                {| lr_status := Some "success"; lr_data := Some demo_chat |}
                (world (demo_extraction_state (Ok demo_answer)))
                {| Demo.chats := {[ "chat_test" := demo_chat ]}; Demo.files := ∅;
                   Demo.embed_answers := []; Demo.complete_answers := [] |}
                (msg "a1b2" "be concise") (tail demo_transcript)
                demo_answer demo_answer_data)
      as ((st' & rest & Hrun & Hacts & _) & _ & _ & Hplain).
    + vm_compute. reflexivity.
    + reflexivity.
    + reflexivity.
    + vm_compute. reflexivity.
    + vm_compute. reflexivity.
    + destruct Hplain as (Hcount & _); [repeat constructor|].
      split; [exact Hcount|]. exists st', rest. split; [exact Hrun | exact Hacts].
  - destruct (Hmany ["chat_test"; "chat_test"]
                (demo_extractions_state [Ok demo_answer; Ok demo_second_answer]))
      as [Hsaved Hle].
    split.
    + rewrite Hsaved. vm_compute. reflexivity.
    + apply Hle; [vm_compute; repeat constructor | constructor].
Defined.

(** C9 as stated fails: when a topic of the answer is itself flagged
    sticky, the Topic Set saved has two sticky entries. *)
Lemma two_sticky_entries_saved :
  map sticky_count
      (saved_topic_sets
         (actions (snd (_run_topic_extraction (Demo.services demo_json) "chat_test"
                          (demo_extraction_state (Ok demo_flagged_answer))))))
  = [2].
Proof. vm_compute. reflexivity. Qed.

(** Scenario D of the specification: switching the mode off while a topic
    is selected empties the selection and emits [filter_changed] with no
    active topic; the filter then passes the history through. *)
Example mode_off_clears_selection :
  let st := snd (set_similarity_mode (IsBool false) no_kwargs (demo_filter_state 0.7)) in
  active_topics (self st) = ∅ /\
  actions st = [Emitted (FilterChanged [] "")] /\
  _on_pipeline_context (Demo.services []) demo_ctx st = (Ok demo_ctx, st).
Proof. repeat split. Qed.

(** * Further properties of the code *)

(** ** Strings *)

Lemma append_cons (c : ascii) (s t : string) : String c s +:+ t = String c (s +:+ t).
Proof. reflexivity. Qed.

Lemma append_nil_l (s : string) : "" +:+ s = s.
Proof. reflexivity. Qed.

Lemma append_nil_r (s : string) : s +:+ "" = s.
Proof. induction s as [|c s IH]; [reflexivity|]. by rewrite append_cons, IH. Qed.

Lemma append_assoc (s t u : string) : (s +:+ t) +:+ u = s +:+ (t +:+ u).
Proof. induction s as [|c s IH]; [reflexivity|]. by rewrite !append_cons, IH. Qed.

Lemma append_length (s t : string) :
  String.length (s +:+ t) = String.length s + String.length t.
Proof.
  induction s as [|c s IH]; [reflexivity|]. rewrite append_cons. simpl. by rewrite IH.
Qed.

Lemma chars_append (s t : string) :
  list_ascii_of_string (s +:+ t) = list_ascii_of_string s ++ list_ascii_of_string t.
Proof.
  induction s as [|c s IH]; [reflexivity|]. rewrite append_cons. simpl. by rewrite IH.
Qed.

Lemma string_of_chars_app (l k : list ascii) :
  string_of_list_ascii (l ++ k) = string_of_list_ascii l +:+ string_of_list_ascii k.
Proof.
  induction l as [|c l IH]; [reflexivity|]. simpl. by rewrite append_cons, IH.
Qed.

Lemma str_take_length (n : nat) (s : string) :
  String.length (str_take n s) = Nat.min n (String.length s).
Proof.
  revert s. induction n as [|n IH]; intros [|c s]; simpl; try reflexivity.
  rewrite IH. reflexivity.
Qed.

Lemma str_take_all (n : nat) (s : string) :
  String.length s <= n -> str_take n s = s.
Proof.
  revert s. induction n as [|n IH]; intros [|c s]; simpl; intros H;
    try reflexivity; [lia|].
  rewrite IH by lia. reflexivity.
Qed.

Lemma str_take_app (s t : string) : str_take (String.length s) (s +:+ t) = s.
Proof.
  induction s as [|c s IH]; [by destruct t|]. rewrite append_cons. simpl. by rewrite IH.
Qed.

(** Two concatenations whose first parts have the same length agree part
    by part. *)
Lemma append_inj_length (s1 s2 t1 t2 : string) :
  String.length s1 = String.length s2 ->
  s1 +:+ t1 = s2 +:+ t2 -> s1 = s2 /\ t1 = t2.
Proof.
  revert s2. induction s1 as [|c s1 IH]; intros [|c2 s2]; simpl; intros Hl H;
    try discriminate; [done|].
  rewrite !append_cons in H. injection H as -> H. injection Hl as Hl.
  destruct (IH s2 Hl H) as [-> ->]. done.
Qed.

Lemma str_split_nonempty (c : ascii) (s : string) : str_split c s <> [].
Proof.
  destruct s as [|a s]; simpl; [done|].
  destruct (Ascii.eqb a c); [done|]. destruct (str_split c s); done.
Qed.

Lemma str_join_cons (sep p : string) (ps : list string) :
  ps <> [] -> str_join sep (p :: ps) = p +:+ sep +:+ str_join sep ps.
Proof. destruct ps; [done|reflexivity]. Qed.

(** Joining the parts of a split with the separator gives the text back:
    [sep.join(s.split(sep)) == s], for a one-character separator. *)
Lemma str_join_split (c : ascii) (s : string) :
  str_join (String c "") (str_split c s) = s.
Proof.
  induction s as [|a s IH]; [reflexivity|]. simpl.
  pose proof (str_split_nonempty c s) as Hne.
  destruct (Ascii.eqb a c) eqn:Hac.
  - apply Ascii.eqb_eq in Hac. subst a.
    rewrite str_join_cons by exact Hne. rewrite IH. reflexivity.
  - destruct (str_split c s) as [|p ps]; [done|].
    destruct ps as [|q qs].
    + simpl in *. by rewrite IH.
    + rewrite str_join_cons by done. rewrite str_join_cons in IH by done.
      rewrite append_cons, IH. reflexivity.
Qed.

Lemma drop_spaces_app_spaces (ws l : list ascii) :
  Forall (fun c => is_space c = true) ws -> drop_spaces (ws ++ l) = drop_spaces l.
Proof. induction 1 as [|c ws Hc _ IH]; simpl; [reflexivity|]. by rewrite Hc. Qed.

Lemma drop_spaces_keeps (c : ascii) (l : list ascii) :
  is_space c = false -> drop_spaces (c :: l) = c :: l.
Proof. intros H. simpl. by rewrite H. Qed.

(** [strip] removes the whitespace around a text that starts and ends with
    a character that is not whitespace. *)
Lemma str_strip_core (ws ws' mid : list ascii) (c d : ascii) :
  Forall (fun c => is_space c = true) ws ->
  Forall (fun c => is_space c = true) ws' ->
  is_space c = false -> is_space d = false ->
  str_strip (string_of_list_ascii (ws ++ (c :: mid ++ [d]) ++ ws'))
  = string_of_list_ascii (c :: mid ++ [d]).
Proof.
  intros Hws Hws' Hc Hd. unfold str_strip.
  rewrite list_ascii_of_string_of_list_ascii. f_equal.
  rewrite drop_spaces_app_spaces by exact Hws.
  assert (H1 : drop_spaces ((c :: mid ++ [d]) ++ ws') = (c :: mid ++ [d]) ++ ws')
    by (apply (drop_spaces_keeps c); exact Hc).
  rewrite H1, rev_app_distr.
  rewrite drop_spaces_app_spaces by (apply Forall_rev; exact Hws').
  assert (H2 : rev (c :: mid ++ [d]) = d :: rev (c :: mid))
    by (rewrite (app_comm_cons mid [d] c), rev_app_distr; reflexivity).
  rewrite H2, drop_spaces_keeps by exact Hd.
  rewrite <- H2. apply rev_involutive.
Qed.

(** The first part of a split is the text before the first separator. *)
Lemma str_split_first (c : ascii) (s rest : string) :
  c ∉ list_ascii_of_string s ->
  str_split c (s +:+ String c rest) = s :: str_split c rest.
Proof.
  induction s as [|a s IH]; intros Hc.
  - rewrite append_nil_l. simpl. by rewrite Ascii.eqb_refl.
  - rewrite append_cons. simpl in *.
    apply not_elem_of_cons in Hc as [Hne Hc].
    destruct (Ascii.eqb a c) eqn:Hac; [apply Ascii.eqb_eq in Hac; congruence|].
    rewrite (IH Hc). reflexivity.
Qed.

Lemma prefix_append (s t : string) : String.prefix s (s +:+ t) = true.
Proof.
  induction s as [|a s IH]; [by destruct t|]. rewrite append_cons. simpl.
  destruct (ascii_dec a a); [exact IH|done].
Qed.

Lemma str_ends_with_append (s suffix : string) :
  str_ends_with suffix (s +:+ suffix) = true.
Proof.
  unfold str_ends_with. rewrite chars_append, rev_app_distr, string_of_chars_app.
  apply prefix_append.
Qed.

(** X1.  An answer wrapped in a Markdown fence - optional whitespace, three
    backticks and the rest of that line, the text, three backticks,
    optional whitespace - is handed to [json.loads] as the text alone. *)
Theorem strip_fence_fenced (ws ws' lang text : string) :
  Forall (fun c => is_space c = true) (list_ascii_of_string ws) ->
  Forall (fun c => is_space c = true) (list_ascii_of_string ws') ->
  nl_char ∉ list_ascii_of_string lang ->
  strip_fence (ws +:+ "```" +:+ lang +:+ nl +:+ text +:+ "```" +:+ ws') = text.
Proof.
  intros Hws Hws' Hlang.
  set (core := "```" +:+ lang +:+ nl +:+ text +:+ "```").
  assert (Hstrip : str_strip (ws +:+ "```" +:+ lang +:+ nl +:+ text +:+ "```" +:+ ws')
                   = core).
  { set (mid := list_ascii_of_string ("``" +:+ lang +:+ nl +:+ text +:+ "``")).
    assert (Hcore : core = string_of_list_ascii ("`"%char :: mid ++ ["`"%char])).
    { unfold mid, core.
      rewrite <- (string_of_list_ascii_of_string
                    ("```" +:+ lang +:+ nl +:+ text +:+ "```")).
      f_equal. rewrite !chars_append. simpl.
      repeat (rewrite <- app_assoc; simpl). reflexivity. }
    rewrite Hcore.
    rewrite <- (str_strip_core (list_ascii_of_string ws) (list_ascii_of_string ws')
                  mid "`"%char "`"%char Hws Hws' eq_refl eq_refl).
    f_equal. rewrite !string_of_chars_app, <- Hcore.
    rewrite !string_of_list_ascii_of_string. unfold core.
    rewrite !append_assoc. reflexivity. }
  unfold strip_fence. rewrite Hstrip.
  assert (Hprefix : String.prefix "```" core = true) by apply prefix_append.
  rewrite Hprefix.
  assert (Hsplit : str_join nl (tail (str_split nl_char core)) = text +:+ "```").
  { replace core with (("```" +:+ lang) +:+ String nl_char (text +:+ "```"))
      by (unfold core; rewrite append_assoc; reflexivity).
    rewrite (str_split_first nl_char ("```" +:+ lang) (text +:+ "```")).
    - simpl tail. apply str_join_split.
    - rewrite chars_append. simpl. rewrite !not_elem_of_cons.
      repeat split; try done. }
  rewrite Hsplit, str_ends_with_append.
  rewrite append_length. simpl String.length.
  replace (String.length text + 3 - 3) with (String.length text) by lia.
  apply str_take_app.
Qed.

Lemma strip_fence_fenced_witness :
  strip_fence (" " +:+ "```" +:+ "json" +:+ nl +:+ "{}" +:+ "```" +:+ nl) = "{}".
Proof.
  apply (strip_fence_fenced " " nl "json" "{}").
  - repeat constructor.
  - repeat constructor.
  - simpl. rewrite !not_elem_of_cons. repeat split; try discriminate.
    apply not_elem_of_nil.
Defined.

(** ** The embedding cache, further *)

Lemma md5_digest_length (s : string) : length (MD5.digest s) = 16.
Proof.
  unfold MD5.digest.
  destruct (fold_left MD5.process _ MD5.init) as [[[a b] c] d]. reflexivity.
Qed.

Lemma md5_hexdigest_length (s : string) : String.length (MD5.hexdigest s) = 32.
Proof.
  unfold MD5.hexdigest.
  assert (H : forall l : list Z,
             String.length (fold_right (fun b acc => MD5.hex_byte b +:+ acc) "" l)
             = 2 * length l).
  { induction l as [|b l IH]; [reflexivity|]. simpl fold_right.
    rewrite append_length, IH. simpl. lia. }
  rewrite H, md5_digest_length. reflexivity.
Qed.

Lemma fingerprint_length (content : string) :
  String.length (str_take 8 (MD5.hexdigest content)) = 8.
Proof. rewrite str_take_length, md5_hexdigest_length. reflexivity. Qed.

Lemma key_eq_inv (id1 id2 c1 c2 : string) :
  EmbeddingCache._key id1 c1 = EmbeddingCache._key id2 c2 ->
  id1 = id2 /\ str_take 8 (MD5.hexdigest c1) = str_take 8 (MD5.hexdigest c2).
Proof.
  unfold EmbeddingCache._key. intros H.
  assert (Hlen : String.length id1 = String.length id2).
  { apply (f_equal String.length) in H.
    rewrite !append_length, !fingerprint_length in H. simpl in H. lia. }
  destruct (append_inj_length _ _ _ _ Hlen H) as [-> H'].
  split; [reflexivity|]. by apply (append_inj_r ":") in H'.
Qed.

(** X2.  The keys of two entries are equal exactly when the message ids are
    equal and the fingerprints of the contents are: an entry of one message
    is never taken for an entry of another, whatever characters the ids
    hold. *)
Theorem key_injective (id1 id2 c1 c2 : string) :
  EmbeddingCache._key id1 c1 = EmbeddingCache._key id2 c2 <->
  id1 = id2 /\ str_take 8 (MD5.hexdigest c1) = str_take 8 (MD5.hexdigest c2).
Proof.
  split; [apply key_eq_inv|]. intros [-> Hfp]. unfold EmbeddingCache._key.
  by rewrite Hfp.
Qed.

Section CacheFrames.
Context {W : Type} (sv : Services W).

(** X3.  A [set] that returns changes the answer of [get] for the entry
    set only: for another message id, or for a content with another
    fingerprint, [get] answers as before. *)
Theorem cache_set_keeps_other_entries (c c' : EmbeddingCache.t)
    (message_id content other_id other_content : string) (vec : vector)
    (st st' : State W) :
  EmbeddingCache.set sv c message_id content vec st = (Ok c', st') ->
  other_id <> message_id \/
  str_take 8 (MD5.hexdigest other_content) <> str_take 8 (MD5.hexdigest content) ->
  EmbeddingCache.get c' other_id other_content = EmbeddingCache.get c other_id other_content.
Proof.
  intros Hset Hother. apply cache_set_returns in Hset. subst c'.
  unfold EmbeddingCache.get, EmbeddingCache.assign; simpl.
  apply lookup_insert_ne. intros Hk. apply key_eq_inv in Hk.
  destruct Hk as [Hid Hfp]. destruct Hother as [Hne|Hne]; congruence.
Qed.

End CacheFrames.

Lemma key_injective_witness :
  EmbeddingCache._key "a:b" "hello" = EmbeddingCache._key "a:b" "hello" /\
  EmbeddingCache._key "a" "hello" <> EmbeddingCache._key "a:b" "hello".
Proof.
  split; [reflexivity|].
  intros H. apply (proj1 (key_injective "a" "a:b" "hello" "hello")) in H.
  destruct H as [H _]. discriminate.
Defined.

Lemma cache_set_keeps_other_entries_witness :
  EmbeddingCache.get
    (EmbeddingCache.assign
       (EmbeddingCache.assign demo_cache "msg1" "original" [0.5%float])
       "msg2" "original" [1%float])
    "msg1" "original"
  = Some [0.5%float].
Proof.
  rewrite (cache_set_keeps_other_entries (Demo.services [])
             (EmbeddingCache.assign demo_cache "msg1" "original" [0.5%float])
             (EmbeddingCache.assign
                (EmbeddingCache.assign demo_cache "msg1" "original" [0.5%float])
                "msg2" "original" [1%float])
             "msg2" "original" "msg1" "original" [1%float] demo_state
             (snd (EmbeddingCache.set (Demo.services [])
                     (EmbeddingCache.assign demo_cache "msg1" "original" [0.5%float])
                     "msg2" "original" [1%float] demo_state))
             eq_refl).
  - vm_compute. reflexivity.
  - left. discriminate.
Defined.

(** X4.  The name [safe_id] makes of a chat id holds no slash, backslash or
    dot, so the cache file lies in the memory directory itself; and a name
    it made is left as it is. *)
Theorem safe_id_is_a_file_name (chat_id : string) :
  (forall c : ascii,
     c ∈ list_ascii_of_string (safe_id chat_id) -> is_path_char c = false) /\
  safe_id (safe_id chat_id) = safe_id chat_id.
Proof.
  unfold safe_id. split.
  - intros c Hc. rewrite list_ascii_of_string_of_list_ascii in Hc.
    apply list_elem_of_In, List.filter_In in Hc as [_ Hkeep].
    unfold is_path_char.
    destruct (Ascii.eqb c "/") eqn:H1;
      [apply Ascii.eqb_eq in H1; subst c; discriminate|].
    destruct (Ascii.eqb c "\") eqn:H2;
      [apply Ascii.eqb_eq in H2; subst c; discriminate|].
    destruct (Ascii.eqb c ".") eqn:H3;
      [apply Ascii.eqb_eq in H3; subst c; discriminate|].
    reflexivity.
  - rewrite list_ascii_of_string_of_list_ascii. f_equal.
    induction (list_ascii_of_string chat_id) as [|c l IH]; [reflexivity|].
    simpl. destruct (is_alnum c || Ascii.eqb c "-" || Ascii.eqb c "_") eqn:Hc;
      simpl; [rewrite Hc; f_equal|]; exact IH.
Qed.

(** ** Scores *)

(** X5.  The score [max(...)] gives a message is the cosine similarity of
    its embedding with one of the topic embeddings; with no topic embedding
    at all [max] raises [ValueError]. *)
Theorem max_sim_is_a_cosine (emb : vector) (topic_embeddings : list vector) (s : float) :
  max_sim emb topic_embeddings = Ok s ->
  topic_embeddings <> [] /\
  exists t : vector, t ∈ topic_embeddings /\ _cosine_similarity emb t = Ok s.
Proof.
  assert (Hfrom : forall ts cur r,
            max_from emb cur ts = Ok r ->
            r = cur \/ exists t, t ∈ ts /\ _cosine_similarity emb t = Ok r).
  { induction ts as [|t ts IH]; intros cur r H; simpl in H.
    - injection H as <-. by left.
    - destruct (_cosine_similarity emb t) as [s'|e] eqn:Hc; simpl in H; [|discriminate].
      destruct (IH _ _ H) as [->|(t' & Ht' & Hc')].
      + destruct (PrimFloat.ltb cur s'); [|by left].
        right. exists t. split; [left|exact Hc].
      + right. exists t'. split; [by right|exact Hc']. }
  destruct topic_embeddings as [|t ts]; simpl; [discriminate|].
  intros H. split; [done|].
  destruct (_cosine_similarity emb t) as [s'|e] eqn:Hc; simpl in H; [|discriminate].
  destruct (Hfrom _ _ _ H) as [->|(t' & Ht' & Hc')].
  - exists t. split; [left|exact Hc].
  - exists t'. split; [by right|exact Hc'].
Qed.

Lemma max_sim_is_a_cosine_witness :
  exists t : vector,
    t ∈ [[1; 0]; [0; 1]]%float /\ _cosine_similarity [0; 1]%float t = Ok 1%float.
Proof.
  apply (max_sim_is_a_cosine [0; 1]%float [[1; 0]; [0; 1]]%float 1%float).
  vm_compute. reflexivity.
Defined.

Lemma cosine_empty_l (b : vector) : _cosine_similarity [] b = Ok 0%float.
Proof. reflexivity. Qed.

Lemma cosine_empty_r (a : vector) : _cosine_similarity a [] = Ok 0%float.
Proof.
  unfold _cosine_similarity.
  replace (dot [] []) with 0%float by reflexivity.
  replace (PrimFloat.eqb (PrimFloat.sqrt 0) 0) with true by reflexivity.
  rewrite orb_true_r. reflexivity.
Qed.

(** X6.  An empty vector scores 0 and raises nothing: a message whose
    embedding is empty has score 0 against any topic embeddings, and so has
    any message when every topic embedding is empty. *)
Theorem empty_embedding_scores_zero (emb : vector) (topic_embeddings : list vector) :
  topic_embeddings <> [] ->
  max_sim [] topic_embeddings = Ok 0%float /\
  (Forall (fun t => t = []) topic_embeddings -> max_sim emb topic_embeddings = Ok 0%float).
Proof.
  assert (Hcons : forall e cur t ts,
            max_from e cur (t :: ts)
            = rbind (_cosine_similarity e t)
                    (fun s => max_from e (if PrimFloat.ltb cur s then s else cur) ts))
    by reflexivity.
  intros Hne. split.
  - assert (Hfrom : forall ts, max_from [] 0 ts = Ok 0%float).
    { induction ts as [|t ts IH]; [reflexivity|].
      rewrite Hcons, cosine_empty_l. exact IH. }
    destruct topic_embeddings as [|t ts]; [done|]. unfold max_sim.
    rewrite cosine_empty_l. apply Hfrom.
  - intros Hall.
    assert (Hfrom : forall ts, Forall (fun t => t = []) ts -> max_from emb 0 ts = Ok 0%float).
    { induction 1 as [|t ts -> _ IH]; [reflexivity|].
      rewrite Hcons, cosine_empty_r. exact IH. }
    destruct Hall as [|t ts -> Hts]; [done|]. unfold max_sim.
    rewrite cosine_empty_r. apply Hfrom. exact Hts.
Qed.

Lemma empty_embedding_scores_zero_witness :
  max_sim [] [[1; 0]%float] = Ok 0%float.
Proof.
  refine (proj1 (empty_embedding_scores_zero [] [[1; 0]%float] _)). discriminate.
Defined.

(** ** Runs that only talk to collaborators *)

Section Quiet.
Context {W : Type}.

Lemma quiet_ret {A} (a : A) : quiet (@ret W A a).
Proof. intros st. done. Qed.

Lemma quiet_lift {A} (r : result A) : quiet (@lift W A r).
Proof. intros st. done. Qed.

Lemma quiet_get_self : quiet (@get_self W).
Proof. intros st. done. Qed.

Lemma quiet_call {A} (f : W -> result A * W) : quiet (call f).
Proof. intros st. unfold call. destruct (f (world st)) as [r w]. done. Qed.

Lemma quiet_bind {A B} (c : M W A) (k : A -> M W B) :
  quiet c -> (forall a, quiet (k a)) -> quiet (bind c k).
Proof.
  intros Hc Hk st. unfold bind. destruct (Hc st) as [Hs Ha].
  destruct (c st) as [[a|e] st1]; simpl in *; [|done].
  destruct (Hk a st1) as [Hs' Ha']. split; congruence.
Qed.

End Quiet.

Ltac quiet_step :=
  first
    [ apply quiet_ret
    | apply quiet_lift
    | apply quiet_get_self
    | apply quiet_call
    | assumption
    | apply quiet_bind; [|intros ?]
    | match goal with
      | |- quiet (if ?b then _ else _) => destruct b
      | |- quiet (match ?x with _ => _ end) => destruct x
      | |- quiet (let '(_, _) := ?x in _) => destruct x
      end ].

Section QuietRuns.
Context {W : Type} (sv : Services W).

Lemma quiet_cache_init (memory_dir chat_id : string) :
  quiet (EmbeddingCache.__init__ sv memory_dir chat_id).
Proof. intros st. done. Qed.

Lemma quiet_cache_set (c : EmbeddingCache.t) (message_id content : string)
    (embedding : vector) :
  quiet (EmbeddingCache.set sv c message_id content embedding).
Proof. unfold EmbeddingCache.set, EmbeddingCache._save. repeat quiet_step. Qed.

Lemma quiet_store_new (pairs : list (Message * vector)) :
  forall (cache : EmbeddingCache.t) (cached : gmap string vector),
    quiet (store_new sv cache cached pairs).
Proof.
  induction pairs as [|[m emb] rest IH]; intros cache cached; simpl.
  - apply quiet_ret.
  - apply quiet_bind; [apply quiet_cache_set | intros c'; apply IH].
Qed.

Lemma quiet_fetch_embeddings (chat_id : string) (messages : list Message) :
  quiet (fetch_embeddings sv chat_id messages).
Proof.
  unfold fetch_embeddings.
  repeat (apply quiet_cache_init || apply quiet_store_new || quiet_step).
Qed.

Lemma quiet_compute_relevant_ids (chat_id : string) (messages : list Message)
    (sticky_ids : gset string) :
  quiet (_compute_relevant_ids sv chat_id messages sticky_ids).
Proof.
  unfold _compute_relevant_ids. repeat (apply quiet_fetch_embeddings || quiet_step).
Qed.

Lemma quiet_on_pipeline_context_body (ctx : PipelineContext) (chat_id : string) :
  quiet (on_pipeline_context_body sv ctx chat_id).
Proof.
  unfold on_pipeline_context_body.
  repeat (apply quiet_compute_relevant_ids || quiet_step).
Qed.

Lemma quiet_extract_topics (messages : list Message) :
  quiet (_extract_topics sv messages).
Proof. unfold _extract_topics. repeat quiet_step. Qed.

(** X7.  [get_topics] is a read-only projection: whatever its arguments
    and whatever the store answers, it leaves the plugin as it is and
    emits, logs, saves and schedules nothing. *)
Theorem get_topics_is_read_only (chat_id : string) (kw : Kwargs) (st : State W) :
  self (snd (get_topics sv chat_id kw st)) = self st /\
  actions (snd (get_topics sv chat_id kw st)) = actions st.
Proof.
  revert st. change (quiet (get_topics sv chat_id kw)).
  unfold get_topics. repeat quiet_step.
Qed.

(** X8.  A run of the filter never changes the plugin, saves no chat and
    emits no event: all it may leave behind is one error record. *)
Theorem filter_only_logs (ctx : PipelineContext) (st : State W) :
  self (snd (_on_pipeline_context sv ctx st)) = self st /\
  (actions (snd (_on_pipeline_context sv ctx st)) = actions st \/
   exists e : exn,
     actions (snd (_on_pipeline_context sv ctx st))
     = actions st ++ [Logged (ErrorContextInjectionFailed e)]).
Proof.
  destruct (filter_runs_dec (self st) ctx) as [[chat_id Hruns]|Hskip].
  - rewrite (on_pipeline_context_runs sv ctx chat_id st Hruns).
    destruct (quiet_on_pipeline_context_body ctx chat_id st) as [Hs Ha].
    destruct (on_pipeline_context_body sv ctx chat_id st) as [[ctx'|e] st'];
      simpl in *.
    + split; [exact Hs|]. by left.
    + split; [exact Hs|]. right. exists e. by rewrite Ha.
  - rewrite (on_pipeline_context_skips sv ctx st Hskip). split; [done|]. by left.
Qed.

End QuietRuns.

(** ** The filter and the highlight, further *)

Lemma collect_sticky_ids_from (topics_list : list Topic) :
  forall (acc : gset string) (i : string),
    i ∈ fold_left (fun acc t =>
                     if is_sticky t then acc ∪ list_to_set (topic_message_ids t) else acc)
                  topics_list acc <->
    i ∈ acc \/
    exists t : Topic, t ∈ topics_list /\ is_sticky t = true /\ i ∈ topic_message_ids t.
Proof.
  induction topics_list as [|t ts IH]; intros acc i; simpl.
  - split; [auto|]. intros [H|(t & Ht & _)]; [exact H|]. inversion Ht.
  - rewrite IH. destruct (is_sticky t) eqn:Hs.
    + rewrite elem_of_union, elem_of_list_to_set. split.
      * intros [[H|H]|(t' & Ht' & Hs' & Hi)]; [by left| |].
        -- right. exists t. split; [left|]. done.
        -- right. exists t'. split; [by right|]. done.
      * intros [H|(t' & Ht' & Hs' & Hi)]; [by (left; left)|].
        apply elem_of_cons in Ht' as [->|Ht']; [by (left; right)|].
        right. exists t'. done.
    + split.
      * intros [H|(t' & Ht' & Hs' & Hi)]; [by left|].
        right. exists t'. split; [by right|]. done.
      * intros [H|(t' & Ht' & Hs' & Hi)]; [by left|].
        apply elem_of_cons in Ht' as [->|Ht']; [congruence|].
        right. exists t'. done.
Qed.

(** X9.  The sticky ids the filter resolves from a Topic Set are the
    [message_ids] of all its entries flagged sticky, however many there
    are; the [message_ids] of an entry that is not flagged are ignored. *)
Theorem collect_sticky_ids_elem_of (topics_list : list Topic) (i : string) :
  i ∈ collect_sticky_ids topics_list <->
  exists t : Topic, t ∈ topics_list /\ is_sticky t = true /\ i ∈ topic_message_ids t.
Proof.
  unfold collect_sticky_ids. rewrite collect_sticky_ids_from. split; [|auto].
  intros [H|H]; [|exact H]. by apply not_elem_of_empty in H.
Qed.


Section Highlight.
Context {W : Type} (sv : Services W).

Lemma emit_highlight_ids_eq (chat_id : string) (st : State W) :
  _emit_highlight_ids sv chat_id st
  = match svc_load_chat sv chat_id (world st) with
    | (Ok reply, w1) =>
        match _compute_relevant_ids sv chat_id
                (default [] (cd_messages (reply_data reply))) (sticky_ids_of reply)
                (with_world st w1) with
        | (Ok included, st2) =>
            (Ok tt, {| world := world st2; self := self st2;
                       actions := actions st2 ++ [Emitted (HighlightApplied included)] |})
        | (Raise e, st2) =>
            (Ok tt, {| world := world st2; self := self st2;
                       actions := actions st2 ++ [Logged (ErrorHighlightFailed e)] |})
        end
    | (Raise e, w1) =>
        (Ok tt, {| world := w1; self := self st;
                   actions := actions st ++ [Logged (ErrorHighlightFailed e)] |})
    end.
Proof.
  unfold _emit_highlight_ids, emit_highlight_ids_body, try_except.
  unfold bind at 1. unfold call at 1.
  destruct (svc_load_chat sv chat_id (world st)) as [[reply|e] w1]; [|reflexivity].
  fold (with_world st w1). fold (sticky_ids_of reply). unfold bind, act.
  destruct (_compute_relevant_ids sv chat_id _ (sticky_ids_of reply) (with_world st w1))
    as [[included|e] st2]; reflexivity.
Qed.

(** X10.  The highlight task never raises and never changes the plugin.
    It leaves exactly one trace: an error record, or one
    [highlight_applied] event whose ids are ids of messages of the stored
    transcript and include the id of every message that is sticky. *)
Theorem emit_highlight_ids_outcome (chat_id : string) (st : State W) :
  exists st' : State W,
    _emit_highlight_ids sv chat_id st = (Ok tt, st') /\
    self st' = self st /\
    ((exists e : exn, actions st' = actions st ++ [Logged (ErrorHighlightFailed e)]) \/
     (exists (reply : LoadReply) (w1 : W) (ids : list string),
        svc_load_chat sv chat_id (world st) = (Ok reply, w1) /\
        actions st' = actions st ++ [Emitted (HighlightApplied ids)] /\
        (forall i : string,
           i ∈ ids ->
           exists m : Message,
             m ∈ default [] (cd_messages (reply_data reply)) /\ get_id m = i) /\
        (forall m : Message,
           m ∈ default [] (cd_messages (reply_data reply)) ->
           get_id m ∈ sticky_ids_of reply -> get_id m ∈ ids))).
Proof.
  rewrite emit_highlight_ids_eq.
  destruct (svc_load_chat sv chat_id (world st)) as [[reply|e] w1] eqn:Hload.
  2:{ eexists. split; [reflexivity|]. split; [reflexivity|]. left. by exists e. }
  rewrite compute_relevant_ids_eq.
  destruct (quiet_fetch_embeddings sv chat_id
              (default [] (cd_messages (reply_data reply))) (with_world st w1))
    as [Hself Hacts].
  destruct (fetch_embeddings sv chat_id _ (with_world st w1)) as [[embs|e] st2];
    simpl in Hself, Hacts.
  2:{ eexists. split; [reflexivity|]. simpl. split; [exact Hself|].
      left. exists e. by rewrite Hacts. }
  destruct (score_messages _ _ _ _ _ _) as [ids|e] eqn:Hscore.
  2:{ eexists. split; [reflexivity|]. simpl. split; [exact Hself|].
      left. exists e. by rewrite Hacts. }
  eexists. split; [reflexivity|]. simpl. split; [exact Hself|].
  right. exists reply, w1, ids. split; [reflexivity|]. split; [by rewrite Hacts|].
  pose proof (score_messages_elem_of _ _ _ _ _ _ _ Hscore) as Hin. split.
  - intros i Hi. apply Hin in Hi as [Hnil|(m & Hm & Hid & _)]; [inversion Hnil|].
    exists m. done.
  - intros m Hm Hsticky. apply Hin. right. exists m. auto.
Qed.

(** X11.  Run on the same state, with the stored transcript as history,
    the highlight task and the filter score alike: either both fail with
    the same exception, or the task announces ids and the filter, when it
    narrows the history, keeps exactly the messages with these ids - and
    keeps the whole history when none of these ids is other than sticky. *)
Theorem highlight_agrees_with_filter (ctx : PipelineContext) (chat_id : string)
    (st : State W) (reply : LoadReply) (w1 : W) :
  filter_runs (self st) ctx chat_id ->
  svc_load_chat sv chat_id (world st) = (Ok reply, w1) ->
  cd_messages (reply_data reply) = Some (history ctx) ->
  (exists e : exn,
     actions (snd (_emit_highlight_ids sv chat_id st))
     = actions st ++ [Logged (ErrorHighlightFailed e)] /\
     fst (_on_pipeline_context sv ctx st) = Ok ctx /\
     actions (snd (_on_pipeline_context sv ctx st))
     = actions st ++ [Logged (ErrorContextInjectionFailed e)]) \/
  (exists ids : list string,
     actions (snd (_emit_highlight_ids sv chat_id st))
     = actions st ++ [Emitted (HighlightApplied ids)] /\
     actions (snd (_on_pipeline_context sv ctx st)) = actions st /\
     ((non_sticky (sticky_ids_of reply) ids = [] /\
       fst (_on_pipeline_context sv ctx st) = Ok ctx) \/
      (non_sticky (sticky_ids_of reply) ids <> [] /\
       fst (_on_pipeline_context sv ctx st)
       = Ok (set_history ctx (keep_included ids (history ctx)))))).
Proof.
  intros Hruns Hload Hmsgs.
  rewrite emit_highlight_ids_eq, Hload, Hmsgs. simpl default.
  rewrite (on_pipeline_context_runs sv ctx chat_id st Hruns).
  rewrite (on_pipeline_context_body_eq sv ctx chat_id st reply w1 Hload).
  destruct (quiet_compute_relevant_ids sv chat_id (history ctx) (sticky_ids_of reply)
              (with_world st w1)) as [_ Hacts].
  destruct (_compute_relevant_ids sv chat_id (history ctx) (sticky_ids_of reply)
              (with_world st w1)) as [[ids|e] st2]; simpl in Hacts.
  - right. exists ids. simpl. rewrite Hacts. split; [reflexivity|]. split; [reflexivity|].
    destruct (non_sticky (sticky_ids_of reply) ids) eqn:Hnon; [by left|by right].
  - left. exists e. simpl. rewrite Hacts. done.
Qed.

End Highlight.

Section WarmCache.
Context {W : Type} (sv : Services W).

Lemma lookup_cached_all_hits (cache : EmbeddingCache.t) (messages : list Message) :
  forall (need0 : list Message) (cached0 : gmap string vector),
    (forall m : Message,
       m ∈ messages ->
       is_Some (EmbeddingCache.get cache (get_id m) (get_content m))) ->
    exists cached : gmap string vector,
      fold_left (fun acc msg =>
                   let '(need_embed, cached) := acc in
                   match EmbeddingCache.get cache (get_id msg) (get_content msg) with
                   | Some emb => (need_embed, <[get_id msg := emb]> cached)
                   | None => (need_embed ++ [msg], cached)
                   end)
                messages (need0, cached0)
      = (need0, cached) /\
      (forall i : string, is_Some (cached0 !! i) -> is_Some (cached !! i)) /\
      (forall m : Message, m ∈ messages -> is_Some (cached !! get_id m)).
Proof.
  induction messages as [|m rest IH]; intros need0 cached0 Hhits; simpl.
  - exists cached0. split; [reflexivity|]. split; [auto|]. intros m Hm. inversion Hm.
  - destruct (Hhits m) as [emb Hemb]; [left|]. rewrite Hemb.
    destruct (IH need0 (<[get_id m := emb]> cached0)) as (cached & Hfold & Hmono & Hall).
    { intros m' Hm'. apply Hhits. by right. }
    exists cached. split; [exact Hfold|]. split.
    + intros i Hi. apply Hmono. destruct (decide (get_id m = i)) as [->|Hne].
      * rewrite lookup_insert_eq. eauto.
      * by rewrite lookup_insert_ne.
    + intros m' Hm'. apply elem_of_cons in Hm' as [->|Hm']; [|by apply Hall].
      apply Hmono. rewrite lookup_insert_eq. eauto.
Qed.

(** X12.  With a warm cache - the embeddings file of the chat has an entry
    for every message of the history, under its id and content - fetching
    the embeddings asks the provider for the topic labels only and writes
    nothing: it ends in the state the provider's one answer left, with an
    embedding for every message. *)
Theorem warm_cache_embeds_topics_only (chat_id : string) (messages : list Message)
    (st : State W) (topic_embeddings : list vector) (w1 : W) :
  svc_embed sv (elements (active_topics (self st))) (world st)
  = (Ok topic_embeddings, w1) ->
  (forall m : Message,
     m ∈ messages ->
     is_Some (default ∅ (svc_read_embeddings sv (cache_path (self st) chat_id) w1)
                !! EmbeddingCache._key (get_id m) (get_content m))) ->
  exists cached : gmap string vector,
    fetch_embeddings sv chat_id messages st
    = (Ok (topic_embeddings, cached), with_world st w1) /\
    forall m : Message, m ∈ messages -> is_Some (cached !! get_id m).
Proof.
  intros Hembed Hhits.
  set (cache := {| EmbeddingCache._path := cache_path (self st) chat_id;
                   EmbeddingCache._data :=
                     default ∅ (svc_read_embeddings sv (cache_path (self st) chat_id) w1) |}).
  destruct (lookup_cached_all_hits cache messages [] ∅ Hhits)
    as (cached & Hfold & _ & Hall).
  exists cached. split; [|exact Hall].
  assert (Hl : lookup_cached cache messages = ([], cached)) by exact Hfold.
  unfold fetch_embeddings, bind, get_self, call, EmbeddingCache.__init__.
  rewrite Hembed.
  change (lookup_cached _ messages) with (lookup_cached cache messages).
  rewrite Hl. reflexivity.
Qed.

End WarmCache.

(** ** Topic extraction, further *)

Lemma labels_of_all (topics : list Topic) :
  Forall (fun t => is_Some (t_label t)) topics -> labels_of topics = Ok (labels topics).
Proof.
  induction 1 as [|t ts [l Hl] _ IH]; [reflexivity|]. simpl.
  rewrite Hl, IH. reflexivity.
Qed.

Lemma labels_of_missing (topics : list Topic) :
  Exists (fun t => t_label t = None) topics ->
  labels_of topics = Raise (KeyError "label").
Proof.
  induction 1 as [t ts Ht|t ts _ IH]; simpl.
  - by rewrite Ht.
  - destruct (t_label t); [|reflexivity]. by rewrite IH.
Qed.

Section ExtractionRuns.
Context {W : Type} (sv : Services W).

(** The run once the chat is loaded with messages and the answer parsed. *)
Lemma run_topic_extraction_parsed (chat_id : string) (st : State W)
    (reply : LoadReply) (w1 w2 : W) (m : Message) (ms : list Message)
    (content : string) (data : ExtractionData) :
  svc_load_chat sv chat_id (world st) = (Ok reply, w1) ->
  status_not_success reply = false ->
  cd_messages (reply_data reply) = Some (m :: ms) ->
  svc_complete sv (llm_messages_of (m :: ms)) (extraction_category (self st)) w1
  = (Ok content, w2) ->
  svc_json_loads sv (strip_fence content) = Ok data ->
  _run_topic_extraction sv chat_id st
  = try_except
      (after_extraction sv chat_id (set_topics (reply_data reply) (topics_of_data data))
         (topics_of_data data) (length (m :: ms)))
      (fun e => act (Logged (ErrorExtractionFailed chat_id e)))
      (with_world st w2).
Proof.
  intros Hload Hstatus Hmsgs Hc Hparse.
  unfold _run_topic_extraction, run_topic_extraction_body, try_except.
  unfold bind at 1. unfold call at 1. rewrite Hload, Hstatus, Hmsgs. simpl.
  unfold bind at 1. fold (with_world st w1).
  rewrite (extract_topics_parsed sv (m :: ms) (with_world st w1) content w2 Hc).
  rewrite Hparse. reflexivity.
Qed.

(** X13.  When the store does not answer with status [success], or the
    chat has no message, an extraction does nothing: the provider is not
    called, nothing is saved, emitted or logged, the plugin is unchanged. *)
Theorem extraction_skips_empty_chat (chat_id : string) (st : State W)
    (reply : LoadReply) (w1 : W) :
  svc_load_chat sv chat_id (world st) = (Ok reply, w1) ->
  status_not_success reply = true \/ default [] (cd_messages (reply_data reply)) = [] ->
  _run_topic_extraction sv chat_id st = (Ok tt, with_world st w1).
Proof.
  intros Hload Hskip.
  unfold _run_topic_extraction, run_topic_extraction_body, try_except.
  unfold bind at 1. unfold call at 1. rewrite Hload.
  destruct (status_not_success reply); [reflexivity|].
  destruct Hskip as [Hs|Hm]; [discriminate|]. rewrite Hm. reflexivity.
Qed.

(** X14.  A complete extraction - the chat is loaded with messages, the
    answer parses, every topic has a label and the store takes the
    document - does four things in this order: it hands the document with
    the new Topic Set to [memory.save_chat], makes the chat the current
    one, emits [topics_updated] with that Topic Set and the number of
    messages of the transcript, and logs the labels.  The selection, the
    mode and the threshold are as before. *)
Theorem extraction_completes (chat_id : string) (st : State W)
    (reply : LoadReply) (w1 w2 w3 : W) (m : Message) (ms : list Message)
    (content : string) (data : ExtractionData) :
  svc_load_chat sv chat_id (world st) = (Ok reply, w1) ->
  status_not_success reply = false ->
  cd_messages (reply_data reply) = Some (m :: ms) ->
  svc_complete sv (llm_messages_of (m :: ms)) (extraction_category (self st)) w1
  = (Ok content, w2) ->
  svc_json_loads sv (strip_fence content) = Ok data ->
  Forall (fun t => is_Some (t_label t)) (default [] (ed_topics data)) ->
  svc_save_chat sv chat_id (set_topics (reply_data reply) (topics_of_data data)) w2
  = (Ok tt, w3) ->
  _run_topic_extraction sv chat_id st
  = (Ok tt,
     {| world := w3;
        self := with_current_chat_id (self st) chat_id;
        actions :=
          actions st
          ++ [ SavedChat chat_id (set_topics (reply_data reply) (topics_of_data data));
               Emitted (TopicsUpdated chat_id (topics_of_data data) (length (m :: ms)));
               Logged (InfoTopicsExtracted chat_id (labels (topics_of_data data))) ] |}).
Proof.
  intros Hload Hstatus Hmsgs Hc Hparse Hlabels Hsave.
  rewrite (run_topic_extraction_parsed chat_id st reply w1 w2 m ms content data)
    by assumption.
  assert (Hl : labels_of (topics_of_data data) = Ok (labels (topics_of_data data))).
  { apply labels_of_all. rewrite topics_of_data_eq. apply Forall_app. split; [exact Hlabels|].
    destruct (default [] (ed_sticky_message_ids data)); repeat constructor.
    simpl. eauto. }
  unfold try_except, after_extraction, bind, act, call, modify_self, lift. simpl.
  rewrite Hsave. simpl. rewrite Hl. simpl. rewrite <- !app_assoc. reflexivity.
Qed.

(** X15.  When a topic of the answer has no label, the extraction still
    hands the document to the store, makes the chat current and emits
    [topics_updated]; only then it fails on the labels, and what it logs
    is an extraction failure. *)
Theorem extraction_with_unlabelled_topic (chat_id : string) (st : State W)
    (reply : LoadReply) (w1 w2 w3 : W) (m : Message) (ms : list Message)
    (content : string) (data : ExtractionData) :
  svc_load_chat sv chat_id (world st) = (Ok reply, w1) ->
  status_not_success reply = false ->
  cd_messages (reply_data reply) = Some (m :: ms) ->
  svc_complete sv (llm_messages_of (m :: ms)) (extraction_category (self st)) w1
  = (Ok content, w2) ->
  svc_json_loads sv (strip_fence content) = Ok data ->
  Exists (fun t => t_label t = None) (default [] (ed_topics data)) ->
  svc_save_chat sv chat_id (set_topics (reply_data reply) (topics_of_data data)) w2
  = (Ok tt, w3) ->
  _run_topic_extraction sv chat_id st
  = (Ok tt,
     {| world := w3;
        self := with_current_chat_id (self st) chat_id;
        actions :=
          actions st
          ++ [ SavedChat chat_id (set_topics (reply_data reply) (topics_of_data data));
               Emitted (TopicsUpdated chat_id (topics_of_data data) (length (m :: ms)));
               Logged (ErrorExtractionFailed chat_id (KeyError "label")) ] |}).
Proof.
  intros Hload Hstatus Hmsgs Hc Hparse Hmissing Hsave.
  rewrite (run_topic_extraction_parsed chat_id st reply w1 w2 m ms content data)
    by assumption.
  assert (Hl : labels_of (topics_of_data data) = Raise (KeyError "label")).
  { apply labels_of_missing. rewrite topics_of_data_eq. apply Exists_app. by left. }
  unfold try_except, after_extraction, bind, act, call, modify_self, lift. simpl.
  rewrite Hsave. simpl. rewrite Hl. simpl. rewrite <- !app_assoc. reflexivity.
Qed.

(** X16.  When [memory.save_chat] raises, the extraction logs the failure
    and stops there: no [topics_updated] is emitted and the current chat
    of the plugin is not changed. *)
Theorem extraction_save_fails (chat_id : string) (st : State W)
    (reply : LoadReply) (w1 w2 w3 : W) (m : Message) (ms : list Message)
    (content : string) (data : ExtractionData) (e : exn) :
  svc_load_chat sv chat_id (world st) = (Ok reply, w1) ->
  status_not_success reply = false ->
  cd_messages (reply_data reply) = Some (m :: ms) ->
  svc_complete sv (llm_messages_of (m :: ms)) (extraction_category (self st)) w1
  = (Ok content, w2) ->
  svc_json_loads sv (strip_fence content) = Ok data ->
  svc_save_chat sv chat_id (set_topics (reply_data reply) (topics_of_data data)) w2
  = (Raise e, w3) ->
  _run_topic_extraction sv chat_id st
  = (Ok tt,
     {| world := w3;
        self := self st;
        actions :=
          actions st
          ++ [ SavedChat chat_id (set_topics (reply_data reply) (topics_of_data data));
               Logged (ErrorExtractionFailed chat_id e) ] |}).
Proof.
  intros Hload Hstatus Hmsgs Hc Hparse Hsave.
  rewrite (run_topic_extraction_parsed chat_id st reply w1 w2 m ms content data)
    by assumption.
  unfold try_except, after_extraction, bind, act, call, modify_self, lift. simpl.
  rewrite Hsave. simpl. rewrite <- !app_assoc. reflexivity.
Qed.

End ExtractionRuns.

(** ** Commands and filter state, further *)

Section CommandRuns.
Context {W : Type} (sv : Services W).

Lemma set_filter_eq (topics : option (list string)) (kw : Kwargs) (st : State W) :
  let S : gset string := list_to_set (effective_topics topics kw) in
  let chat := current_chat_id (self st) in
  set_filter topics kw st
  = (Ok {| sf_status := "success"; sf_active_topics := elements S |},
     {| world := world st;
        self := with_active_topics (self st) S;
        actions :=
          actions st
          ++ Emitted (FilterChanged (elements S) chat)
             :: (if negb (String.eqb chat "") && negb (bool_decide (S = ∅))
                    && embedding_search (self st)
                 then [Spawned (HighlightTask chat)] else []) |}).
Proof.
  unfold set_filter, effective_topics, bind, modify_self, get_self, act, ret. simpl.
  destruct (negb (String.eqb (current_chat_id (self st)) "")
            && negb (bool_decide (list_to_set _ = ∅)) && embedding_search (self st));
    simpl; rewrite <- ?app_assoc; reflexivity.
Qed.

Lemma list_to_set_empty_iff (l : list string) :
  (list_to_set l : gset string) = ∅ <-> l = [].
Proof.
  split; [|intros ->; reflexivity]. destruct l as [|x l]; [done|].
  intros H. exfalso. apply (not_elem_of_empty (C:=gset string) x).
  rewrite <- H. apply elem_of_list_to_set. left.
Qed.

(** X17.  [set_filter] replaces the selection wholesale: whatever was
    selected before, the selection becomes the set of the topics given,
    and the reply and the [filter_changed] event list each of them once.
    Nothing else of the plugin changes, and the highlight task is
    scheduled - not run - exactly when a chat is current, a topic is
    selected and the mode is on. *)
Theorem set_filter_replaces_selection (topics : option (list string)) (kw : Kwargs)
    (st : State W) :
  exists (listed : list string) (scheduled : list Action),
    set_filter topics kw st
    = (Ok {| sf_status := "success"; sf_active_topics := listed |},
       {| world := world st;
          self := with_active_topics (self st) (list_to_set (effective_topics topics kw));
          actions :=
            actions st
            ++ Emitted (FilterChanged listed (current_chat_id (self st))) :: scheduled |}) /\
    NoDup listed /\
    (forall x : string, x ∈ listed <-> x ∈ effective_topics topics kw) /\
    ((scheduled = [Spawned (HighlightTask (current_chat_id (self st)))] /\
      current_chat_id (self st) <> "" /\ effective_topics topics kw <> [] /\
      embedding_search (self st) = true) \/
     (scheduled = [] /\
      (current_chat_id (self st) = "" \/ effective_topics topics kw = [] \/
       embedding_search (self st) = false))).
Proof.
  eexists _, _. split; [apply set_filter_eq|]. split; [apply NoDup_elements|]. split.
  - intros x. rewrite elem_of_elements, elem_of_list_to_set. reflexivity.
  - destruct (String.eqb (current_chat_id (self st)) "") eqn:Hchat; simpl.
    { right. split; [reflexivity|]. left. by apply String.eqb_eq. }
    destruct (bool_decide (list_to_set (effective_topics topics kw) = (∅ : gset string)))
      eqn:Hsel; simpl.
    { right. split; [reflexivity|]. right. left.
      apply bool_decide_eq_true in Hsel. by apply list_to_set_empty_iff. }
    destruct (embedding_search (self st)) eqn:Hmode.
    + left. split; [reflexivity|]. split; [by apply String.eqb_neq|].
      split; [|reflexivity]. apply bool_decide_eq_false in Hsel.
      intros H. apply Hsel. by apply list_to_set_empty_iff.
    + right. split; [reflexivity|]. right. by right.
Qed.

(** X18.  The two states of the filter.  After [set_filter] the gate is
    closed exactly when no topic was given or the mode is off; after
    [set_similarity_mode] with a [bool] it is closed exactly when the mode
    was switched off or nothing was selected.  And with a closed gate the
    next run of the filter hands the context back untouched. *)
Theorem filter_state_machine :
  (forall (topics : option (list string)) (kw : Kwargs) (st : State W),
     gate_closed (self (snd (set_filter topics kw st)))
     = bool_decide (effective_topics topics kw = []) || negb (embedding_search (self st))) /\
  (forall (b : bool) (kw : Kwargs) (st : State W),
     gate_closed (self (snd (set_similarity_mode (IsBool b) kw st)))
     = negb b || bool_decide (active_topics (self st) = ∅)) /\
  (forall (ctx : PipelineContext) (st : State W),
     gate_closed (self st) = true -> _on_pipeline_context sv ctx st = (Ok ctx, st)).
Proof.
  split; [|split].
  - intros topics kw st. rewrite set_filter_eq. unfold gate_closed. simpl. f_equal.
    apply bool_decide_ext, list_to_set_empty_iff.
  - intros [] kw st.
    + rewrite (set_similarity_mode_on (IsBool true) kw st) by reflexivity.
      unfold gate_closed. simpl. apply orb_false_r.
    + rewrite (set_similarity_mode_off (IsBool false) kw st) by reflexivity.
      reflexivity.
  - intros ctx st Hgate. apply on_pipeline_context_skips.
    intros chat_id (Hopen & _). congruence.
Qed.

Lemma same_settings_stable : Stable (@same_settings W).
Proof.
  split; unfold same_settings; simpl; intros; try done.
  destruct H as (? & ? & ?), H0 as (? & ? & ?). repeat split; congruence.
Qed.

Lemma same_filter_state_stable : Stable (@same_filter_state W).
Proof.
  split; unfold same_filter_state; simpl; intros; try done.
  destruct H as (? & ? & ?), H0 as (? & ? & ?). repeat split; congruence.
Qed.

Lemma run_op_same_settings (op : Op) (st : State W) :
  same_settings st (run_op sv st op).
Proof.
  destruct op as [t kw|en kw|c kw|ctx|c|c]; simpl.
  - rewrite set_filter_eq. done.
  - destruct (effective_enabled en kw) eqn:He.
    + rewrite set_similarity_mode_on by exact He. done.
    + rewrite set_similarity_mode_off by exact He. done.
  - apply (respects_get_topics sv _ same_settings_stable).
  - apply (respects_on_pipeline_context sv _ same_settings_stable).
  - apply (respects_run_topic_extraction sv _ same_settings_stable). done.
  - apply (respects_emit_highlight_ids sv _ same_settings_stable).
Qed.

Lemma run_op_same_filter_state (op : Op) (st : State W) :
  is_command op = false -> same_filter_state st (run_op sv st op).
Proof.
  destruct op as [t kw|en kw|c kw|ctx|c|c]; simpl; intros Hop; try discriminate.
  - apply (respects_get_topics sv _ same_filter_state_stable).
  - apply (respects_on_pipeline_context sv _ same_filter_state_stable).
  - apply (respects_run_topic_extraction sv _ same_filter_state_stable). done.
  - apply (respects_emit_highlight_ids sv _ same_filter_state_stable).
Qed.

(** X19.  Over any sequence of runs the threshold, the configuration and
    the vault path of the plugin stay what they were at load time; and
    over a sequence without [set_filter] and [set_similarity_mode] so do
    the selection and the mode: filtering, extraction, [get_topics] and
    the highlight task never change what the filter does. *)
Theorem only_commands_change_filter_state (ops : list Op) (st : State W) :
  same_settings st (run_ops sv ops st) /\
  (Forall (fun op => is_command op = false) ops ->
   same_filter_state st (run_ops sv ops st)).
Proof.
  split.
  - revert st. induction ops as [|op ops IH]; intros st; simpl.
    + apply (stable_refl _ same_settings_stable).
    + eapply (stable_trans _ same_settings_stable);
        [apply run_op_same_settings | apply IH].
  - revert st. induction ops as [|op ops IH]; intros st Hops; simpl.
    + apply (stable_refl _ same_filter_state_stable).
    + inversion Hops as [|? ? Hop Hrest]; subst.
      eapply (stable_trans _ same_filter_state_stable);
        [apply run_op_same_filter_state; exact Hop | apply IH; exact Hrest].
Qed.

End CommandRuns.

(** ** The further properties on the plan's test scenarios *)

Lemma highlight_agrees_with_filter_witness :
  (exists e : exn,
     actions (snd (_emit_highlight_ids (Demo.services []) "chat_test"
                     (demo_filter_state 0.7)))
     = [Logged (ErrorHighlightFailed e)]) \/
  (exists ids : list string,
     actions (snd (_emit_highlight_ids (Demo.services []) "chat_test"
                     (demo_filter_state 0.7)))
     = [Emitted (HighlightApplied ids)] /\
     fst (_on_pipeline_context (Demo.services []) demo_ctx (demo_filter_state 0.7))
     = Ok (set_history demo_ctx (keep_included ids demo_history))).
Proof.
  destruct (highlight_agrees_with_filter (Demo.services []) demo_ctx "chat_test"
              (demo_filter_state 0.7)
              {| lr_status := Some "success";
                 lr_data := Some {| cd_messages := Some demo_history;
                                    cd_topics := Some [plain_topic "Python Async" 1] |} |}
              (world (demo_filter_state 0.7)))
    as [(e & Hlog & _)|(ids & Hlog & _ & [[Hnone Hrun]|[_ Hrun]])].
  - unfold filter_runs. repeat split; discriminate.
  - vm_compute. reflexivity.
  - reflexivity.
  - left. exists e. exact Hlog.
  - exfalso. vm_compute in Hlog. injection Hlog as <-. vm_compute in Hnone. discriminate.
  - right. exists ids. split; [exact Hlog | exact Hrun].
Defined.

Lemma warm_cache_embeds_topics_only_witness :
  exists cached : gmap string vector,
    fetch_embeddings (Demo.services []) "chat_test" demo_history demo_warm_state
    = (Ok ([[0.9; 0.1]%float], cached),
       with_world demo_warm_state
         {| Demo.chats := Demo.chats (world demo_warm_state);
            Demo.files := Demo.files (world demo_warm_state);
            Demo.embed_answers := []; Demo.complete_answers := [] |}) /\
    forall m : Message, m ∈ demo_history -> is_Some (cached !! get_id m).
Proof.
  apply (warm_cache_embeds_topics_only (Demo.services []) "chat_test" demo_history
           demo_warm_state [[0.9; 0.1]%float]).
  - vm_compute. reflexivity.
  - intros m Hm.
    apply elem_of_cons in Hm as [->|Hm];
      [|apply elem_of_cons in Hm as [->|Hm]; [|inversion Hm]];
      vm_compute; eexists; reflexivity.
Defined.

Lemma extraction_skips_empty_chat_witness :
  _run_topic_extraction (Demo.services demo_json) "no_such_chat"
    (demo_extraction_state (Ok demo_answer))
  = (Ok tt, demo_extraction_state (Ok demo_answer)).
Proof.
  apply (extraction_skips_empty_chat (Demo.services demo_json) "no_such_chat"
           (demo_extraction_state (Ok demo_answer))
           {| lr_status := Some "error"; lr_data := None |}
           (world (demo_extraction_state (Ok demo_answer)))).
  - vm_compute. reflexivity.
  - left. reflexivity.
Defined.

Lemma extraction_completes_witness :
  actions (snd (_run_topic_extraction (Demo.services demo_json) "chat_test"
                  (demo_extraction_state (Ok demo_answer))))
  = [ SavedChat "chat_test"
        (set_topics demo_chat [plain_topic "Python Async" 2; sticky_entry ["a1b2"]]);
      Emitted (TopicsUpdated "chat_test"
                 [plain_topic "Python Async" 2; sticky_entry ["a1b2"]] 3);
      Logged (InfoTopicsExtracted "chat_test"
                ["Python Async"; "Instructions & Preferences"]) ].
Proof.
  rewrite (extraction_completes (Demo.services demo_json) "chat_test"
             (demo_extraction_state (Ok demo_answer)) demo_reply
             (world (demo_extraction_state (Ok demo_answer))) demo_answered_world
             (snd (Demo.save_chat "chat_test"
                     (set_topics demo_chat (topics_of_data demo_answer_data))
                     demo_answered_world))
             (msg "a1b2" "be concise") (tail demo_transcript)
             demo_answer demo_answer_data).
  - reflexivity.
  - vm_compute. reflexivity.
  - reflexivity.
  - reflexivity.
  - vm_compute. reflexivity.
  - vm_compute. reflexivity.
  - repeat constructor; eexists; reflexivity.
  - reflexivity.
Defined.

Lemma extraction_with_unlabelled_topic_witness :
  actions (snd (_run_topic_extraction (Demo.services demo_json) "chat_test"
                  (demo_extraction_state (Ok demo_unlabelled_answer))))
  = [ SavedChat "chat_test" (set_topics demo_chat [unlabelled_topic]);
      Emitted (TopicsUpdated "chat_test" [unlabelled_topic] 3);
      Logged (ErrorExtractionFailed "chat_test" (KeyError "label")) ].
Proof.
  rewrite (extraction_with_unlabelled_topic (Demo.services demo_json) "chat_test"
             (demo_extraction_state (Ok demo_unlabelled_answer)) demo_reply
             (world (demo_extraction_state (Ok demo_unlabelled_answer)))
             demo_answered_world
             (snd (Demo.save_chat "chat_test"
                     (set_topics demo_chat (topics_of_data demo_unlabelled_answer_data))
                     demo_answered_world))
             (msg "a1b2" "be concise") (tail demo_transcript)
             demo_unlabelled_answer demo_unlabelled_answer_data).
  - reflexivity.
  - vm_compute. reflexivity.
  - reflexivity.
  - reflexivity.
  - vm_compute. reflexivity.
  - vm_compute. reflexivity.
  - constructor. reflexivity.
  - reflexivity.
Defined.

Lemma extraction_save_fails_witness :
  _run_topic_extraction (demo_read_only_store demo_json) "chat_test"
    (demo_extraction_state (Ok demo_answer))
  = (Ok tt,
     {| world := demo_answered_world;
        self := demo_plugin 0.4 [];
        actions :=
          [ SavedChat "chat_test"
              (set_topics demo_chat [plain_topic "Python Async" 2; sticky_entry ["a1b2"]]);
            Logged (ErrorExtractionFailed "chat_test"
                      (StoreError "store is read-only")) ] |}).
Proof.
  apply (extraction_save_fails (demo_read_only_store demo_json) "chat_test"
           (demo_extraction_state (Ok demo_answer)) demo_reply
           (world (demo_extraction_state (Ok demo_answer)))
           demo_answered_world demo_answered_world
           (msg "a1b2" "be concise") (tail demo_transcript)
           demo_answer demo_answer_data (StoreError "store is read-only")).
  - vm_compute. reflexivity.
  - reflexivity.
  - reflexivity.
  - vm_compute. reflexivity.
  - vm_compute. reflexivity.
  - reflexivity.
Defined.

Lemma filter_state_machine_witness :
  let st := snd (set_filter (Some []) no_kwargs (demo_filter_state 0.7)) in
  _on_pipeline_context (Demo.services []) demo_ctx st = (Ok demo_ctx, st).
Proof.
  intros st.
  apply (proj2 (proj2 (filter_state_machine (Demo.services []))) demo_ctx st).
  unfold st.
  rewrite (proj1 (filter_state_machine (Demo.services [])) (Some []) no_kwargs
             (demo_filter_state 0.7)).
  reflexivity.
Defined.

Lemma only_commands_change_filter_state_witness :
  same_filter_state (demo_filter_state 0.7)
    (run_ops (Demo.services demo_json)
       [ OpPipelineContext demo_ctx; OpTopicExtraction "chat_test";
         OpGetTopics "chat_test" no_kwargs; OpEmitHighlight "chat_test" ]
       (demo_filter_state 0.7)).
Proof.
  apply (proj2 (only_commands_change_filter_state (Demo.services demo_json)
                  [ OpPipelineContext demo_ctx; OpTopicExtraction "chat_test";
                    OpGetTopics "chat_test" no_kwargs; OpEmitHighlight "chat_test" ]
                  (demo_filter_state 0.7))).
  repeat constructor.
Defined.
